(** * Gussy Contact server (src/server.js): a shallow embedding and its properties

    The program is an Express application: a stack of middleware
    (helmet, express-rate-limit on /contact, cors), one route
    POST /contact (express.json, four express-validator chains, the
    handler that sends one mail through nodemailer), one route GET /
    and a final error-handling middleware.

    Strings are [string]; a character stands for one UTF-16 code unit in
    the range 0..255, where validator.js counts one unit as one character
    (no surrogate pairs, no variation selectors). *)

From Stdlib Require Import String Ascii List Bool Arith NArith Lia.
From stdpp Require Import gmap strings.
Import ListNotations.

Open Scope string_scope.

(** ** JavaScript values and string primitives *)

(** The values a field of [req.body] takes: absent ([undefined]), or a
    JSON value. A number is given by what [String(n)] prints; an object
    stands for one with no own property named toString, which every
    conversion prints as [object Object]. *)
#[warnings="-register-all"] Inductive Value : Type :=
| VUndef
| VNull
| VString (s : string)
| VBool (b : bool)
| VNumber (printed : string)
| VObject
| VArray (l : list Value).

(** [Array.isArray(v)]. *)
Definition isArray (v : Value) : bool :=
  match v with
  | VArray _ => true
  | _ => false
  end.

Module JS.

Definition nl : ascii := "010"%char.
Definition dquote : string := String "034"%char EmptyString.

(** [String(v)], as a template literal interpolates it; an array is
    [join(',')] of its elements, where undefined and null print as
    nothing. *)
Fixpoint String_ (v : Value) : string :=
  match v with
  | VUndef => "undefined"
  | VNull => "null"
  | VString s => s
  | VBool true => "true"
  | VBool false => "false"
  | VNumber printed => printed
  | VObject => "[object Object]"
  | VArray l =>
      (fix join (l : list Value) : string :=
         match l with
         | [] => EmptyString
         | x :: rest =>
             let item := match x with
                         | VUndef | VNull => EmptyString
                         | _ => String_ x
                         end in
             match rest with
             | [] => item
             | _ => item ++ "," ++ join rest
             end
         end) l
  end.

(** [s.replace(/c/g, r)] for a one-character pattern. *)
Fixpoint replaceAll (c : ascii) (r : string) (s : string) : string :=
  match s with
  | EmptyString => EmptyString
  | String a t =>
      if Ascii.eqb a c then r ++ replaceAll c r t
      else String a (replaceAll c r t)
  end.

(** [v.replace(/c/g, r)] on a value: a TypeError ([None]) unless [v]
    is a string (an array has no [replace]). *)
Definition replace (v : Value) (c : ascii) (r : string) : option string :=
  match v with
  | VString s => Some (replaceAll c r s)
  | _ => None
  end.

(** The regular expression class [\s] on code units 0..255:
    TAB, LF, VT, FF, CR, SPACE and NBSP. *)
Definition isSpace (a : ascii) : bool :=
  let n := nat_of_ascii a in
  (((9 <=? n) && (n <=? 13)) || (n =? 32) || (n =? 160))%nat.

(** [toLowerCase] on code units 0..255: A-Z and the Latin-1 capitals. *)
Definition lowerChar (a : ascii) : ascii :=
  let n := nat_of_ascii a in
  if (((65 <=? n) && (n <=? 90))
      || ((192 <=? n) && (n <=? 222) && negb (n =? 215)))%nat
  then ascii_of_nat (n + 32) else a.

Fixpoint toLowerCase (s : string) : string :=
  match s with
  | EmptyString => EmptyString
  | String a t => String (lowerChar a) (toLowerCase t)
  end.

End JS.

(** ** validator.js: the sanitizers and validators the chains use *)

Module Validator.

(** [ltrim(str)]: [str.replace(/^\s+/g, '')]. *)
Fixpoint ltrim (s : string) : string :=
  match s with
  | EmptyString => EmptyString
  | String a t => if JS.isSpace a then ltrim t else s
  end.

(** [rtrim(str)]: walks back from the last index while the character
    is white space and keeps the prefix. *)
Fixpoint rtrim (s : string) : string :=
  match s with
  | EmptyString => EmptyString
  | String a t =>
      match rtrim t with
      | EmptyString => if JS.isSpace a then EmptyString else String a EmptyString
      | t' => String a t'
      end
  end.

(** [trim(str)] is [rtrim(ltrim(str))]. *)
Definition trim (s : string) : string := rtrim (ltrim s).

(** [isLength(str, {min, max})]: [min] defaults to 0, an undefined
    [max] is no bound. *)
Definition isLength (min : nat) (max : option nat) (s : string) : bool :=
  let len := String.length s in
  (min <=? len)%nat &&
  match max with
  | None => true
  | Some m => (len <=? m)%nat
  end.

(** [escape(str)]: eight global replacements, in this order. *)
Definition escape (s : string) : string :=
  JS.replaceAll "`"%char "&#96;"
    (JS.replaceAll "\"%char "&#x5C;"
      (JS.replaceAll "/"%char "&#x2F;"
        (JS.replaceAll ">"%char "&gt;"
          (JS.replaceAll "<"%char "&lt;"
            (JS.replaceAll "'"%char "&#x27;"
              (JS.replaceAll "034"%char "&quot;"
                (JS.replaceAll "&"%char "&amp;" s))))))).

(** What [escape] does to one character. *)
Definition escapeChar (a : ascii) : string :=
  if Ascii.eqb a "&"%char then "&amp;"
  else if Ascii.eqb a "034"%char then "&quot;"
  else if Ascii.eqb a "'"%char then "&#x27;"
  else if Ascii.eqb a "<"%char then "&lt;"
  else if Ascii.eqb a ">"%char then "&gt;"
  else if Ascii.eqb a "/"%char then "&#x2F;"
  else if Ascii.eqb a "\"%char then "&#x5C;"
  else if Ascii.eqb a "`"%char then "&#96;"
  else String a EmptyString.

End Validator.

(** ** The platform the program runs on

    What the program takes from its environment and from library code
    that is not a fixed function of this file: the e-mail syntax check
    and canonicalisation of validator.js, the two date formatters and
    the EMAIL_USER variable. *)
Class Platform : Type := {
  isEmail : string -> bool;
  normalizeEmail : string -> Value;
  toLocaleString : N -> string;
  toISOString : N -> string;
  EMAIL_USER : Value
}.

(** ** express-validator: chains over the fields of [req.body]

    As express-validator 7 runs them: a standard validator or sanitizer
    is applied to the value converted to a string, and to each element
    in turn when the value is an array. *)

(** [req.body] of the contact route: the four properties the program
    reads. *)
Record Body : Type := {
  b_name : Value;
  b_email : Value;
  b_subject : Value;
  b_message : Value
}.

Definition emptyBody : Body :=
  {| b_name := VUndef; b_email := VUndef; b_subject := VUndef; b_message := VUndef |}.

Inductive Field : Type := FName | FEmail | FSubject | FMessage.

Definition fieldName (f : Field) : string :=
  match f with
  | FName => "name"
  | FEmail => "email"
  | FSubject => "subject"
  | FMessage => "message"
  end.

Definition getField (f : Field) (b : Body) : Value :=
  match f with
  | FName => b_name b
  | FEmail => b_email b
  | FSubject => b_subject b
  | FMessage => b_message b
  end.

Definition setField (f : Field) (v : Value) (b : Body) : Body :=
  match f with
  | FName => {| b_name := v; b_email := b_email b; b_subject := b_subject b; b_message := b_message b |}
  | FEmail => {| b_name := b_name b; b_email := v; b_subject := b_subject b; b_message := b_message b |}
  | FSubject => {| b_name := b_name b; b_email := b_email b; b_subject := v; b_message := b_message b |}
  | FMessage => {| b_name := b_name b; b_email := b_email b; b_subject := b_subject b; b_message := v |}
  end.

Module ExpressValidator.

(** [toString(value)] of express-validator: what a standard validator
    or sanitizer is given for a value that is not an array, or for one
    element of an array; undefined and null become the empty string,
    an object answers with its own [toString()] (an array met as an
    element of an array with [Array.prototype.toString]). *)
Definition toString (v : Value) : string :=
  match v with
  | VUndef | VNull => EmptyString
  | _ => JS.String_ v
  end.

(** [Array.isArray(value) ? value : [value]]: what a standard validator
    or sanitizer runs over. *)
Definition elements (v : Value) : list Value :=
  match v with
  | VArray l => l
  | _ => [v]
  end.

(** One entry of [errors.array()]: the field it names, where the field
    was read, the value the validator saw and the message. *)
Record FieldError : Type := {
  e_param : string;
  e_location : string;
  e_value : Value;
  e_msg : string
}.

(** A chain is a list of items in the order the builder calls were
    made: a sanitizer replaces the value, a validator only looks. *)
Inductive ChainItem : Type :=
| Sanitizer (f : string -> Value)
| StdValidator (p : string -> bool).

Definition invalid (f : Field) (v : Value) : FieldError :=
  {| e_param := fieldName f; e_location := "body"; e_value := v; e_msg := "Invalid value" |}.

(** A standard sanitizer: an array is sanitized element by element and
    stays an array, any other value is replaced by its sanitized
    string. *)
Definition sanitize (s : string -> Value) (v : Value) : Value :=
  match v with
  | VArray l => VArray (map (fun x => s (toString x)) l)
  | _ => s (toString v)
  end.

(** A standard validator: one error for each element it refuses, with
    that element as the value. *)
Definition check (f : Field) (p : string -> bool) (v : Value) : list FieldError :=
  map (invalid f) (List.filter (fun x => negb (p (toString x))) (elements v)).

(** Every item of a chain runs (no [bail()]): the value is threaded
    through, the errors are collected. *)
Fixpoint runChain (f : Field) (items : list ChainItem) (v : Value)
  : Value * list FieldError :=
  match items with
  | [] => (v, [])
  | Sanitizer s :: rest => runChain f rest (sanitize s v)
  | StdValidator p :: rest =>
      let '(v', es) := runChain f rest v in
      (v', (check f p v ++ es)%list)
  end.

(** A chain used as a middleware: the final value is written back to
    the request, the errors are added to those the request carries. *)
Definition runField (f : Field) (items : list ChainItem)
           (b : Body) (errors : list FieldError) : Body * list FieldError :=
  let '(v, es) := runChain f items (getField f b) in
  (setField f v b, (errors ++ es)%list).

Fixpoint runChains (chains : list (Field * list ChainItem))
         (b : Body) (errors : list FieldError) : Body * list FieldError :=
  match chains with
  | [] => (b, errors)
  | (f, items) :: rest =>
      let '(b', errors') := runField f items b errors in
      runChains rest b' errors'
  end.

End ExpressValidator.
Import ExpressValidator.

(** ** Requests, responses and the state of the process *)

(** The methods the application tells apart, and three it does not:
    any further method is routed as these are. *)
Inductive Method : Type := GET | HEAD | POST | OPTIONS | PUT | DELETE | PATCH.

(** Where Express's path matching sends a request URL: [/], [/contact],
    a path below [/contact/], or anything else. *)
Inductive Path : Type := PRoot | PContact | PContactSub | POther.

(** Requests carry no conditional headers (If-None-Match,
    If-Modified-Since). *)
Record Request : Type := {
  method : Method;
  path : Path;
  ip : string;                (* req.ip, the rate limiter's key *)
  origin : option string;     (* the Origin header *)
  jsonType : bool;            (* Content-Type matches application/json *)
  bodyBytes : N;              (* length of the request body in bytes *)
  payload : option Body       (* JSON.parse of the body, [None] when it fails *)
}.

Record MailOptions : Type := {
  m_from : string;
  m_to : string;
  m_replyTo : Value;
  m_subject : string;
  m_html : string;
  m_headers : list (string * string)
}.

(** What [await transporter.sendMail(...)] does: resolve, or throw. *)
Inductive SendResult : Type :=
| Accepted
| Rejected (cause : string).

(** What one request finds outside the process: the clock and the
    answer of the mail transport. *)
Record Env : Type := {
  now : N;
  smtp : MailOptions -> SendResult
}.

(** Errors a middleware passes to [next(err)]: those of body-parser. *)
Inductive PipeError : Type :=
| PayloadTooLarge   (* 413 entity.too.large *)
| MalformedJson.    (* 400 entity.parse.failed *)

(** What the handler's [try] block can throw. *)
Inductive Thrown : Type :=
| TransportError (cause : string)
| TypeError.

Inductive LogEntry : Type :=
| EmailSendError (e : Thrown)   (* console.error('Email send error:', error) *)
| ErrStack (e : PipeError).     (* console.error(err.stack) *)

Record State : Type := {
  hits : gmap string (nat * N);   (* the limiter's store: key -> (totalHits, resetTime) *)
  outbox : list MailOptions;      (* every call of sendMail, latest first *)
  console : list LogEntry         (* latest first *)
}.

Inductive ResBody : Type :=
| BErrors (errors : list FieldError)              (* { errors: [...] } *)
| BSuccess (success : bool) (message : string)    (* { success, message } *)
| BFailure (success : bool) (error : string)      (* { success, error } *)
| BHealth (status service timestamp : string)     (* { status, service, timestamp } *)
| BText (s : string)                               (* res.send(string) *)
| BNone.

(** The body is what the application hands to [res.send] or
    [res.json]; to a HEAD request the status and the headers alone go
    out. *)
Record Response : Type := {
  r_status : nat;
  r_headers : list (string * string);
  r_body : ResBody
}.

(** ** Express: a stack of layers *)

Inductive LayerName : Type :=
| Helmet | Limiter | Cors | Json | Validate (f : Field)
| ContactHandler | Health | ErrorHandler.

(** What the layers of one request share: the request with its body,
    the validation errors attached to it, the response headers set so
    far, the state of the process and the layers that ran. *)
Record Ctx : Type := {
  c_req : Request;
  c_body : Body;
  c_errors : list FieldError;
  c_headers : list (string * string);
  c_state : State;
  c_trace : list LayerName
}.

Definition withBody (b : Body) (es : list FieldError) (c : Ctx) : Ctx :=
  {| c_req := c_req c; c_body := b; c_errors := es; c_headers := c_headers c;
     c_state := c_state c; c_trace := c_trace c |}.

Definition withHeaders (hs : list (string * string)) (c : Ctx) : Ctx :=
  {| c_req := c_req c; c_body := c_body c; c_errors := c_errors c;
     c_headers := (c_headers c ++ hs)%list;
     c_state := c_state c; c_trace := c_trace c |}.

Definition withState (s : State) (c : Ctx) : Ctx :=
  {| c_req := c_req c; c_body := c_body c; c_errors := c_errors c;
     c_headers := c_headers c; c_state := s; c_trace := c_trace c |}.

Definition visit (n : LayerName) (c : Ctx) : Ctx :=
  {| c_req := c_req c; c_body := c_body c; c_errors := c_errors c;
     c_headers := c_headers c; c_state := c_state c;
     c_trace := (c_trace c ++ [n])%list |}.

Definition logged (e : LogEntry) (s : State) : State :=
  {| hits := hits s; outbox := outbox s; console := e :: console s |}.

Definition sent (m : MailOptions) (s : State) : State :=
  {| hits := hits s; outbox := m :: outbox s; console := console s |}.

(** A layer calls [next()], calls [next(err)], or ends the response. *)
Inductive Step : Type :=
| Next (c : Ctx)
| NextErr (e : PipeError) (c : Ctx)
| End_ (status : nat) (b : ResBody) (c : Ctx).

Inductive Handler : Type :=
| Middleware (h : Env -> Ctx -> Step)
| OnError (h : PipeError -> Ctx -> Step).

Record Layer : Type := {
  l_name : LayerName;
  l_match : Request -> bool;
  l_handle : Handler
}.

Definition statusOf (e : PipeError) : nat :=
  match e with
  | PayloadTooLarge => 413
  | MalformedJson => 400
  end.

Module Express.

Definition respond (status : nat) (b : ResBody) (c : Ctx)
  : Response * State * list LayerName :=
  ({| r_status := status; r_headers := c_headers c; r_body := b |},
   c_state c, c_trace c).

(** The router: layers in the order they were registered; with an
    error pending only error handlers run, without one only the
    others. An exhausted stack is the default 404, or the default
    answer to the pending error (their HTML bodies are left out). *)
Fixpoint dispatch (env : Env) (stack : list Layer)
         (pending : option PipeError) (c : Ctx)
  : Response * State * list LayerName :=
  match stack with
  | [] =>
      match pending with
      | None => respond 404 BNone c
      | Some e => respond (statusOf e) BNone c
      end
  | l :: rest =>
      if l_match l (c_req c) then
        match l_handle l, pending with
        | Middleware h, None =>
            match h env (visit (l_name l) c) with
            | Next c' => dispatch env rest None c'
            | NextErr e c' => dispatch env rest (Some e) c'
            | End_ status b c' => respond status b c'
            end
        | OnError h, Some e =>
            match h e (visit (l_name l) c) with
            | Next c' => dispatch env rest None c'
            | NextErr e' c' => dispatch env rest (Some e') c'
            | End_ status b c' => respond status b c'
            end
        | _, _ => dispatch env rest pending c
        end
      else dispatch env rest pending c
  end.

(** [app.use(fn)], [app.use(path, fn)], [app.post(path, fn)] and
    [app.get(path, fn)] as matchers. *)
Definition useAll (r : Request) : bool := true.

Definition useContact (r : Request) : bool :=
  match path r with
  | PContact | PContactSub => true
  | _ => false
  end.

Definition postContact (r : Request) : bool :=
  match method r, path r with
  | POST, PContact => true
  | _, _ => false
  end.

(** A HEAD request is served by the route of GET. *)
Definition getRoot (r : Request) : bool :=
  match method r, path r with
  | GET, PRoot | HEAD, PRoot => true
  | _, _ => false
  end.

(** [express.json({ limit })]: a body that is not declared as JSON is
    left unread and [req.body] stays empty; a declared JSON body
    longer than the limit is refused before it is parsed; an empty one
    is the empty object. *)
Definition json (limit : N) (env : Env) (c : Ctx) : Step :=
  let r := c_req c in
  if jsonType r then
    if (limit <? bodyBytes r)%N then NextErr PayloadTooLarge c
    else if (bodyBytes r =? 0)%N then Next (withBody emptyBody (c_errors c) c)
    else
      match payload r with
      | Some b => Next (withBody b (c_errors c) c)
      | None => NextErr MalformedJson c
      end
  else Next c.

End Express.

(** ** express-rate-limit *)

Module RateLimit.

Record Options : Type := {
  windowMs : N;
  max : nat;
  message : string
}.

(** The memory store: a client whose window is over, or who is new,
    starts a window at this request; the hit is counted. *)
Definition increment (o : Options) (key : string) (t : N)
           (store : gmap string (nat * N)) : nat * gmap string (nat * N) :=
  let '(h, reset) :=
    match store !! key with
    | Some (h, reset) => if (reset <=? t)%N then (0, (t + windowMs o)%N) else (h, reset)
    | None => (0, (t + windowMs o)%N)
    end in
  (S h, <[key := (S h, reset)]> store).

(** The middleware: count, then refuse with status 429 and the
    configured message once the count is above [max]. The X-RateLimit
    headers it adds are left out. *)
Definition middleware (o : Options) (env : Env) (c : Ctx) : Step :=
  let s := c_state c in
  let '(total, store) := increment o (ip (c_req c)) (now env) (hits s) in
  let c' := withState {| hits := store; outbox := outbox s; console := console s |} c in
  if (max o <? total)%nat then End_ 429 (BText (message o)) c'
  else Next c'.

End RateLimit.

(** ** cors *)

Module Cors.

(** The [origin] option: missing, one string, or an array of strings. *)
Inductive OriginOption : Type :=
| OriginUnset
| OriginString (s : string)
| OriginArray (l : list string).

Record Options : Type := {
  o_origin : OriginOption;
  o_methods : list string;
  o_allowedHeaders : list string
}.

(** [isOriginAllowed(origin, allowedOrigin)] for an array of strings:
    some entry is strictly equal to the request's origin. *)
Definition isOriginAllowed (requestOrigin : option string) (allowed : list string) : bool :=
  match requestOrigin with
  | Some o => existsb (String.eqb o) allowed
  | None => false
  end.

(** [configureOrigin]: a missing option or the string ['*'] allows any
    origin; another string is sent as it is; an array reflects the
    request's origin when it is allowed and sets no
    Access-Control-Allow-Origin header when it is not. *)
Definition configureOrigin (o : Options) (r : Request) : list (string * string) :=
  match o_origin o with
  | OriginUnset => [("Access-Control-Allow-Origin", "*")]
  | OriginString s =>
      if String.eqb s "*" then [("Access-Control-Allow-Origin", "*")]
      else [("Access-Control-Allow-Origin", s); ("Vary", "Origin")]
  | OriginArray l =>
      match origin r with
      | Some ro =>
          if isOriginAllowed (Some ro) l
          then [("Access-Control-Allow-Origin", ro); ("Vary", "Origin")]
          else [("Vary", "Origin")]
      | None => [("Vary", "Origin")]
      end
  end.

Definition join (l : list string) : string := String.concat "," l.

(** The middleware: a preflight (OPTIONS) is answered here with
    status 204; any other request gets the origin headers and goes on. *)
Definition middleware (o : Options) (env : Env) (c : Ctx) : Step :=
  let r := c_req c in
  match method r with
  | OPTIONS =>
      End_ 204 BNone
        (withHeaders (configureOrigin o r ++
                      [("Access-Control-Allow-Methods", join (o_methods o));
                       ("Access-Control-Allow-Headers", join (o_allowedHeaders o));
                       ("Content-Length", "0")])%list c)
  | _ => Next (withHeaders (configureOrigin o r) c)
  end.

End Cors.

(** ** The program: src/server.js *)

Section Program.
Context {P : Platform}.

(** *** 1. Security middleware *)

(** [helmet()] only sets response headers, which this model leaves out. *)
Definition helmet (env : Env) (c : Ctx) : Step := Next c.

Definition limiter : RateLimit.Options :=
  {| RateLimit.windowMs := 15 * 60 * 1000;
     RateLimit.max := 100;
     RateLimit.message := "Too many requests. Please try again later." |}.

Definition allowedOrigins : list string := ["*"].

Definition corsOptions : Cors.Options :=
  {| Cors.o_origin := Cors.OriginArray allowedOrigins;
     Cors.o_methods := ["POST"];
     Cors.o_allowedHeaders := ["Content-Type"] |}.

(** *** 2. Email configuration

    The transporter (Gmail over TLS, with the account of the
    environment) is the [smtp] of [Env]: what it answers to a send. *)

(** *** 3. Validation chain *)

Definition nameChain : list ChainItem :=
  [Sanitizer (fun s => VString (Validator.trim s));
   StdValidator (Validator.isLength 2 (Some 100));
   Sanitizer (fun s => VString (Validator.escape s))].

Definition emailChain : list ChainItem :=
  [StdValidator isEmail;
   Sanitizer normalizeEmail].

Definition subjectChain : list ChainItem :=
  [Sanitizer (fun s => VString (Validator.trim s));
   StdValidator (Validator.isLength 0 (Some 200));
   Sanitizer (fun s => VString (Validator.escape s))].

Definition messageChain : list ChainItem :=
  [Sanitizer (fun s => VString (Validator.trim s));
   StdValidator (Validator.isLength 0 (Some 2000));
   Sanitizer (fun s => VString (Validator.escape s))].

Definition contactValidation : list (Field * list ChainItem) :=
  [(FName, nameChain); (FEmail, emailChain);
   (FSubject, subjectChain); (FMessage, messageChain)].

(** *** 4. Production endpoint *)

(** ['10kb'] as the bytes package reads it. *)
Definition jsonLimit : N := 10 * 1024.

Definition validate (f : Field) (items : list ChainItem) (env : Env) (c : Ctx) : Step :=
  let '(b, es) := runField f items (c_body c) (c_errors c) in
  Next (withBody b es c).

Definition mailHtml (name email subject : Value) (messageHtml : string) (t : N) : string :=
  let n := String JS.nl EmptyString in
  let q := JS.dquote in
  n ++ "          <div style=" ++ q ++ "font-family: Arial, sans-serif;" ++ q ++ ">" ++
  n ++ "            <h2>Contact Form Submission</h2>" ++
  n ++ "            <p><strong>From:</strong> " ++ JS.String_ name ++ " (" ++ JS.String_ email ++ ")</p>" ++
  n ++ "            <p><strong>Subject:</strong> " ++ JS.String_ subject ++ "</p>" ++
  n ++ "            <div style=" ++ q ++ "margin-top: 20px; padding: 10px; border: 1px solid #eee;" ++ q ++ ">" ++
  n ++ "              " ++ messageHtml ++
  n ++ "            </div>" ++
  n ++ "            <p style=" ++ q ++ "color: #666; margin-top: 20px;" ++ q ++ ">" ++
  n ++ "              Sent via Gussy Contact Form at " ++ toLocaleString t ++
  n ++ "            </p>" ++
  n ++ "          </div>" ++
  n ++ "        ".

Definition mailOptions (b : Body) (messageHtml : string) (t : N) : MailOptions :=
  {| m_from := JS.dquote ++ "Gussy Contact" ++ JS.dquote ++ " <" ++ JS.String_ EMAIL_USER ++ ">";
     m_to := "saadnadeem962@gmail.com";
     m_replyTo := b_email b;
     m_subject := "New Contact: " ++ JS.String_ (b_subject b);
     m_html := mailHtml (b_name b) (b_email b) (b_subject b) messageHtml t;
     m_headers := [("X-Priority", "1"); ("X-Mailer", "Gussy Contact Server")] |}.

Definition isEmpty (errors : list FieldError) : bool :=
  match errors with
  | [] => true
  | _ => false
  end.

Definition contactHandler (env : Env) (c : Ctx) : Step :=
  if negb (isEmpty (c_errors c)) then End_ 400 (BErrors (c_errors c)) c
  else
    let b := c_body c in
    match JS.replace (b_message b) JS.nl "<br>" with
    | Some messageHtml =>
        let mail := mailOptions b messageHtml (now env) in
        let s := sent mail (c_state c) in
        match smtp env mail with
        | Accepted =>
            End_ 200 (BSuccess true "Your message has been sent successfully!")
                 (withState s c)
        | Rejected cause =>
            End_ 500 (BFailure false "Message failed to send. Please try again later.")
                 (withState (logged (EmailSendError (TransportError cause)) s) c)
        end
    | None =>
        End_ 500 (BFailure false "Message failed to send. Please try again later.")
             (withState (logged (EmailSendError TypeError) (c_state c)) c)
    end.

(** *** 5. Health check *)

Definition healthHandler (env : Env) (c : Ctx) : Step :=
  End_ 200 (BHealth "healthy" "Gussy Contact API" (toISOString (now env))) c.

(** *** 6. Error handling *)

Definition errorHandler (err : PipeError) (c : Ctx) : Step :=
  End_ 500 (BFailure false "Internal Server Error")
       (withState (logged (ErrStack err) (c_state c)) c).

(** *** The application, in the order of the [app.use], [app.post] and
    [app.get] calls *)

Definition contactRoute : list Layer :=
  {| l_name := Json; l_match := Express.postContact;
     l_handle := Middleware (Express.json jsonLimit) |}
  :: map (fun '(f, items) =>
            {| l_name := Validate f; l_match := Express.postContact;
               l_handle := Middleware (validate f items) |})
         contactValidation
  ++ [{| l_name := ContactHandler; l_match := Express.postContact;
         l_handle := Middleware contactHandler |}].

Definition app : list Layer :=
  [{| l_name := Helmet; l_match := Express.useAll; l_handle := Middleware helmet |};
   {| l_name := Limiter; l_match := Express.useContact;
      l_handle := Middleware (RateLimit.middleware limiter) |};
   {| l_name := Cors; l_match := Express.useAll;
      l_handle := Middleware (Cors.middleware corsOptions) |}]
  ++ contactRoute
  ++ [{| l_name := Health; l_match := Express.getRoot; l_handle := Middleware healthHandler |};
      {| l_name := ErrorHandler; l_match := Express.useAll; l_handle := OnError errorHandler |}].

(** One request against the process in state [s]. *)
Definition handle (env : Env) (s : State) (r : Request)
  : Response * State * list LayerName :=
  Express.dispatch env app None
    {| c_req := r; c_body := emptyBody; c_errors := []; c_headers := [];
       c_state := s; c_trace := [] |}.

(** A run of the process: the requests in the order they are handled,
    each with its environment; the responses come out in that order. *)
Fixpoint serve (s : State) (rs : list (Env * Request))
  : list (Response * list LayerName) * State :=
  match rs with
  | [] => ([], s)
  | (env, r) :: rest =>
      let '(res, s', tr) := handle env s r in
      let '(out, s'') := serve s' rest in
      ((res, tr) :: out, s'')
  end.

Definition initialState : State :=
  {| hits := ∅; outbox := []; console := [] |}.

End Program.

(** ** A platform to run the examples on

    validator.js's [isEmail] and [normalizeEmail] are long; the examples
    run on these two functions, which do what the library does on the
    ASCII addresses used below: [isEmailAscii] checks user@domain with
    the library's character classes, [normalizeEmailGeneric] is the
    library's branch for a domain that belongs to none of the providers
    it knows (the address is cut at its last [@], both parts are
    lowercased).
    The date formatters print the clock value in decimal. *)

Module Example.

(** [s] cut at its last [c]. *)
Fixpoint splitLast (c : ascii) (s : string) : option (string * string) :=
  match s with
  | EmptyString => None
  | String a t =>
      match splitLast c t with
      | Some (u, d) => Some (String a u, d)
      | None => if Ascii.eqb a c then Some (EmptyString, t) else None
      end
  end.

(** [s.split(c)]. *)
Fixpoint split (c : ascii) (s : string) : list string :=
  match s with
  | EmptyString => [EmptyString]
  | String a t =>
      if Ascii.eqb a c then EmptyString :: split c t
      else match split c t with
           | [] => [String a EmptyString]
           | p :: ps => String a p :: ps
           end
  end.

Fixpoint all (p : ascii -> bool) (s : string) : bool :=
  match s with
  | EmptyString => true
  | String a t => p a && all p t
  end.

Definition isAlpha (a : ascii) : bool :=
  let n := nat_of_ascii a in
  (((65 <=? n) && (n <=? 90)) || ((97 <=? n) && (n <=? 122)))%nat.

Definition isDigit (a : ascii) : bool :=
  let n := nat_of_ascii a in ((48 <=? n) && (n <=? 57))%nat.

Definition isUserChar (a : ascii) : bool :=
  isAlpha a || isDigit a ||
  existsb (Ascii.eqb a) (list_ascii_of_string "!#$%&'*+-/=?^_`{|}~").

Definition isLabelChar (a : ascii) : bool :=
  isAlpha a || isDigit a || Ascii.eqb a "-"%char.

Definition last (s : string) : option ascii :=
  match rev (list_ascii_of_string s) with
  | a :: _ => Some a
  | [] => None
  end.

Definition isLabel (s : string) : bool :=
  match s with
  | EmptyString => false
  | String a _ =>
      all isLabelChar s && negb (Ascii.eqb a "-"%char)
      && match last s with Some z => negb (Ascii.eqb z "-"%char) | None => false end
      && (String.length s <=? 63)%nat
  end.

Definition isFQDN (d : string) : bool :=
  let labels := split "."%char d in
  match rev labels with
  | tld :: (_ :: _) as others =>
      all isAlpha tld && (2 <=? String.length tld)%nat && forallb isLabel others
  | _ => false
  end.

Definition isUserPart (s : string) : bool :=
  match s with
  | EmptyString => false
  | _ => all isUserChar s
  end.

Definition isEmailAscii (s : string) : bool :=
  match splitLast "@"%char s with
  | Some (user, domain) =>
      (String.length user <=? 64)%nat && (String.length domain <=? 254)%nat
      && isFQDN domain && forallb isUserPart (split "."%char user)
  | None => false
  end.

Definition normalizeEmailGeneric (s : string) : Value :=
  match splitLast "@"%char s with
  | Some (user, domain) =>
      VString (JS.toLowerCase user ++ "@" ++ JS.toLowerCase domain)
  | None => VString ("@" ++ JS.toLowerCase s)
  end.

Fixpoint digits (fuel : nat) (n : N) (acc : string) : string :=
  match fuel with
  | O => acc
  | S fuel' =>
      let acc' := String (ascii_of_N (48 + n mod 10)) acc in
      if (n / 10 =? 0)%N then acc' else digits fuel' (n / 10)%N acc'
  end.

Definition decimal (n : N) : string := digits (S (N.to_nat (N.log2 n))) n EmptyString.

#[export] Instance platform : Platform :=
  {| isEmail := isEmailAscii;
     normalizeEmail := normalizeEmailGeneric;
     toLocaleString := decimal;
     toISOString := decimal;
     EMAIL_USER := VString "gussy.mailer@gmail.com" |}.

(** The transport of the examples: up, or down with a cause. *)
Definition up (m : MailOptions) : SendResult := Accepted.
Definition down (m : MailOptions) : SendResult := Rejected "Invalid login: 535-5.7.8".

Definition body (name email subject message : string) : Body :=
  {| b_name := VString name; b_email := VString email;
     b_subject := VString subject; b_message := VString message |}.

(** A JSON POST to /contact from 203.0.113.7 with a small body. *)
Definition post (b : Body) : Request :=
  {| method := POST; path := PContact; ip := "203.0.113.7";
     origin := Some "https://gussy.example"; jsonType := true;
     bodyBytes := 200; payload := Some b |}.

(** A state in which that client is far over the limit, in a window that
    ends at 900000. *)
Definition overLimit : State :=
  {| hits := {[ "203.0.113.7" := (250, 900000%N) ]}; outbox := []; console := [] |}.

End Example.

(** ** What the properties speak about *)

Section Notions.
Context {P : Platform}.

Definition fields : list Field := [FName; FEmail; FSubject; FMessage].

Definition chainOf (f : Field) : list ChainItem :=
  match f with
  | FName => nameChain
  | FEmail => emailChain
  | FSubject => subjectChain
  | FMessage => messageChain
  end.

(** The field of [b] passes its chain: the chain adds no error. *)
Definition passes (f : Field) (b : Body) : bool :=
  isEmpty (snd (runChain f (chainOf f) (getField f b))).

(** The test the validator of the chain of [f] makes on one element. *)
Definition ruleOn (f : Field) (x : Value) : bool :=
  match f with
  | FName => Validator.isLength 2 (Some 100) (toString x)
  | FEmail => isEmail (toString x)
  | FSubject => Validator.isLength 0 (Some 200) (toString x)
  | FMessage => Validator.isLength 0 (Some 2000) (toString x)
  end.

(** The value a validator of the chain of [f] is given: trimmed, but
    for the email. *)
Definition validated (f : Field) (b : Body) : Value :=
  match f with
  | FEmail => b_email b
  | _ => sanitize (fun s => VString (Validator.trim s)) (getField f b)
  end.

(** Each rule as the chain's validator states it: every element of the
    value passes the test. *)
Definition rule (f : Field) (b : Body) : bool :=
  forallb (ruleOn f) (elements (validated f b)).

(** The form in which a field that passed its chain is left in
    [req.body]. *)
Definition sanitized (f : Field) (v : Value) : Value :=
  match f with
  | FEmail => sanitize normalizeEmail v
  | _ => sanitize (fun s => VString (Validator.escape (Validator.trim s))) v
  end.

Definition allPass (b : Body) : bool := forallb (fun f => passes f b) fields.

(** [req.body] and the errors after the four chains ran on [b]. *)
Definition normalized (b : Body) : Body := fst (runChains contactValidation b []).
Definition validationErrors (b : Body) : list FieldError :=
  snd (runChains contactValidation b []).

(** The state after the limiter counted the request. *)
Definition counted (env : Env) (s : State) (r : Request) : State :=
  {| hits := snd (RateLimit.increment limiter (ip r) (now env) (hits s));
     outbox := outbox s; console := console s |}.

(** The limiter lets the request through. *)
Definition underLimit (env : Env) (s : State) (r : Request) : bool :=
  negb (RateLimit.max limiter <? fst (RateLimit.increment limiter (ip r) (now env) (hits s)))%nat.

(** [req.body] as [express.json] leaves it, [None] when it calls
    [next(err)]. *)
Definition reqBody (r : Request) : option Body :=
  if jsonType r then
    if (jsonLimit <? bodyBytes r)%N then None
    else if (bodyBytes r =? 0)%N then Some emptyBody
    else payload r
  else Some emptyBody.

(** The mail the handler builds from the body [b] of a request handled
    at time [t], when the message the chains leave is a string; it
    builds none when the message came as an array. *)
Definition mailFor (b : Body) (t : N) : MailOptions :=
  mailOptions (normalized b)
    (JS.replaceAll JS.nl "<br>" (JS.String_ (b_message (normalized b)))) t.

Definition contactTrace : list LayerName :=
  [Helmet; Limiter; Cors; Json; Validate FName; Validate FEmail;
   Validate FSubject; Validate FMessage; ContactHandler].

(** The number of requests in a run that the limiter counts for the
    client [key]. *)
Definition countsFor (key : string) (er : Env * Request) : bool :=
  Express.useContact (snd er) && String.eqb (ip (snd er)) key.

Definition hitsOf (key : string) (rs : list (Env * Request)) : nat :=
  List.length (List.filter (countsFor key) rs).

(** The errors the chain of [f] adds for the body [b]. *)
Definition fieldErrors (f : Field) (b : Body) : list FieldError :=
  snd (runChain f (chainOf f) (getField f b)).

(** What the handler of POST /contact is given for the body [b]. *)
Definition contactCtx (env : Env) (s : State) (r : Request) (b : Body) : Ctx :=
  {| c_req := r; c_body := normalized b; c_errors := validationErrors b;
     c_headers := Cors.configureOrigin corsOptions r;
     c_state := counted env s r; c_trace := contactTrace |}.

(** The client [key] has no running window at time [t0]. *)
Definition freshAt (key : string) (t0 : N) (s : State) : Prop :=
  match hits s !! key with
  | Some (_, reset) => (reset <= t0)%N
  | None => True
  end.

(** Every request of the run is handled in the window that opens at [t0]. *)
Definition inWindow (t0 : N) (rs : list (Env * Request)) : Prop :=
  Forall (fun er => (t0 <= now (fst er) < t0 + RateLimit.windowMs limiter)%N) rs.

(** What the store holds for [key] after [n] counted requests of the
    window that opens at [t0]. *)
Definition windowInv (key : string) (t0 : N) (n : nat) (s : State) : Prop :=
  match n with
  | O => freshAt key t0 s
  | S _ =>
      exists reset, hits s !! key = Some (n, reset)
                    /\ (t0 + RateLimit.windowMs limiter <= reset)%N
  end.

Fixpoint repeatChar (a : ascii) (n : nat) : string :=
  match n with
  | O => EmptyString
  | S n' => String a (repeatChar a n')
  end.

(** The response to a send that failed: made of the request alone. *)
Definition sendFailed (r : Request) : Response :=
  {| r_status := 500; r_headers := Cors.configureOrigin corsOptions r;
     r_body := BFailure false "Message failed to send. Please try again later." |}.

(** The response of the limiter when it refuses. *)
Definition tooManyRequests : Response :=
  {| r_status := 429; r_headers := [];
     r_body := BText "Too many requests. Please try again later." |}.

(** *** Notions of the further properties *)

(** Every character of [s] satisfies [p]. *)
Fixpoint forallChars (p : ascii -> bool) (s : string) : bool :=
  match s with
  | EmptyString => true
  | String a t => p a && forallChars p t
  end.

(** The characters [escape] replaces, the ampersand apart (it stays as
    the first character of every entity). *)
Definition isHtmlSpecial (a : ascii) : bool :=
  existsb (Ascii.eqb a) ["<"; ">"; "034"; "'"; "/"; "\"; "`"]%char.

Definition firstChar (s : string) : option ascii :=
  match s with
  | EmptyString => None
  | String a _ => Some a
  end.

Fixpoint lastChar (s : string) : option ascii :=
  match s with
  | EmptyString => None
  | String a t => match lastChar t with Some z => Some z | None => Some a end
  end.

Definition notSpace (o : option ascii) : Prop :=
  match o with
  | Some a => JS.isSpace a = false
  | None => True
  end.

(** The number of occurrences of [c] in [s]. *)
Fixpoint countChar (c : ascii) (s : string) : nat :=
  match s with
  | EmptyString => 0
  | String a t => (if Ascii.eqb a c then 1 else 0) + countChar c t
  end.

(** What becomes of a POST to /contact whose body [b] reached the
    chains: rejected, failed before the send (a message that is an
    array), sent, or failed to send. *)
Definition contactOutcome (env : Env) (s : State) (r : Request) (b : Body)
  : Response * State * list LayerName :=
  if allPass b then
    if isArray (b_message b) then
      (sendFailed r, logged (EmailSendError TypeError) (counted env s r),
       contactTrace)
    else
    match smtp env (mailFor b (now env)) with
    | Accepted =>
        ({| r_status := 200; r_headers := Cors.configureOrigin corsOptions r;
            r_body := BSuccess true "Your message has been sent successfully!" |},
         sent (mailFor b (now env)) (counted env s r), contactTrace)
    | Rejected cause =>
        (sendFailed r,
         logged (EmailSendError (TransportError cause))
                (sent (mailFor b (now env)) (counted env s r)),
         contactTrace)
    end
  else
    ({| r_status := 400; r_headers := Cors.configureOrigin corsOptions r;
        r_body := BErrors (validationErrors b) |},
     counted env s r, contactTrace).

(** The headers of the answer to a preflight. *)
Definition preflightHeaders (r : Request) : list (string * string) :=
  (Cors.configureOrigin corsOptions r ++
   [("Access-Control-Allow-Methods", "POST");
    ("Access-Control-Allow-Headers", "Content-Type");
    ("Content-Length", "0")])%list.

(** The application as a decision table: the limiter first, then the
    preflight, the contact route, the health route, and 404 for the
    rest. *)
Definition route (env : Env) (s : State) (r : Request)
  : Response * State * list LayerName :=
  let st := if Express.useContact r then counted env s r else s in
  let tr := if Express.useContact r then [Helmet; Limiter] else [Helmet] in
  if Express.useContact r && negb (underLimit env s r) then
    (tooManyRequests, counted env s r, [Helmet; Limiter])
  else
    match method r with
    | OPTIONS =>
        ({| r_status := 204; r_headers := preflightHeaders r; r_body := BNone |},
         st, (tr ++ [Cors])%list)
    | _ =>
        if Express.postContact r then
          match reqBody r with
          | Some b => contactOutcome env s r b
          | None =>
              ({| r_status := 500; r_headers := Cors.configureOrigin corsOptions r;
                  r_body := BFailure false "Internal Server Error" |},
               logged (ErrStack (if (jsonLimit <? bodyBytes r)%N
                                 then PayloadTooLarge else MalformedJson))
                      (counted env s r),
               [Helmet; Limiter; Cors; Json; ErrorHandler])
          end
        else if Express.getRoot r then
          ({| r_status := 200; r_headers := Cors.configureOrigin corsOptions r;
              r_body := BHealth "healthy" "Gussy Contact API" (toISOString (now env)) |},
           s, [Helmet; Cors; Health])
        else
          ({| r_status := 404; r_headers := Cors.configureOrigin corsOptions r;
              r_body := BNone |},
           st, (tr ++ [Cors])%list)
    end.
End Notions.

(** ** Strings *)

Lemma app_nil (s : string) : EmptyString ++ s = s.
Proof. reflexivity. Qed.

Lemma app_cons (a : ascii) (s t : string) : String a s ++ t = String a (s ++ t).
Proof. reflexivity. Qed.

Lemma string_app_assoc (s1 s2 s3 : string) : (s1 ++ s2) ++ s3 = s1 ++ (s2 ++ s3).
Proof.
  induction s1 as [|a s1 IH]; [reflexivity|].
  now rewrite !app_cons, IH.
Qed.

Lemma replaceAll_app c r s1 s2 :
  JS.replaceAll c r (s1 ++ s2) = JS.replaceAll c r s1 ++ JS.replaceAll c r s2.
Proof.
  induction s1 as [|a s1 IH]; [reflexivity|].
  rewrite app_cons. simpl JS.replaceAll.
  destruct (Ascii.eqb a c); rewrite IH.
  - now rewrite string_app_assoc.
  - now rewrite app_cons.
Qed.

Lemma escape_app s1 s2 :
  Validator.escape (s1 ++ s2) = Validator.escape s1 ++ Validator.escape s2.
Proof. unfold Validator.escape. now rewrite !replaceAll_app. Qed.

Lemma escape_char a : Validator.escape (String a EmptyString) = Validator.escapeChar a.
Proof.
  destruct a as [[] [] [] [] [] [] [] []]; vm_compute; reflexivity.
Qed.

(** The eight passes of [escape] never touch what an earlier pass wrote:
    together they map each character on its own. *)
Lemma escape_cons a s :
  Validator.escape (String a s) = Validator.escapeChar a ++ Validator.escape s.
Proof.
  change (String a s) with (String a EmptyString ++ s).
  now rewrite escape_app, escape_char.
Qed.

Lemma length_app_string s1 s2 :
  String.length (s1 ++ s2) = (String.length s1 + String.length s2)%nat.
Proof.
  induction s1 as [|a s1 IH]; [reflexivity|].
  rewrite app_cons. simpl. now rewrite IH.
Qed.

Lemma escapeChar_length a :
  (1 <= String.length (Validator.escapeChar a) <= 6)%nat.
Proof.
  destruct a as [[] [] [] [] [] [] [] []]; vm_compute; lia.
Qed.

(** Escaping never shortens a string and makes it at most six times as
    long. *)
Lemma escape_length s :
  (String.length s <= String.length (Validator.escape s) <= 6 * String.length s)%nat.
Proof.
  induction s as [|a s IH]; [vm_compute; lia|].
  rewrite escape_cons, length_app_string. simpl String.length.
  pose proof (escapeChar_length a). lia.
Qed.

(** ** The validation chains *)

Section Validation.
Context {P : Platform}.

Lemma elements_sanitize g v :
  elements (sanitize (fun s => VString (g s)) v) =
  map (fun x => VString (g (toString x))) (elements v).
Proof. destruct v; reflexivity. Qed.

Lemma isArray_sanitize g v :
  isArray (sanitize (fun s => VString (g s)) v) = isArray v.
Proof. destruct v; reflexivity. Qed.

(** Two string sanitizers in a row are one. *)
Lemma sanitize_sanitize g h v :
  sanitize (fun s => VString (h s)) (sanitize (fun s => VString (g s)) v) =
  sanitize (fun s => VString (h (g s))) v.
Proof.
  destruct v; try reflexivity.
  cbn [sanitize]. f_equal. rewrite map_map. reflexivity.
Qed.

Lemma forallb_map {A B} (p : B -> bool) (g : A -> B) l :
  forallb p (map g l) = forallb (fun x => p (g x)) l.
Proof. induction l as [|x l IH]; [reflexivity|]. cbn. now rewrite IH. Qed.

Lemma check_nil f p v :
  isEmpty (check f p v) = forallb (fun x => p (toString x)) (elements v).
Proof.
  unfold check. induction (elements v) as [|x l IH]; [reflexivity|].
  cbn [List.filter forallb]. destruct (p (toString x)); [exact IH|reflexivity].
Qed.

(** The errors of one chain: an entry for each element its validator
    refuses, in the order of the elements. *)
Lemma fieldErrors_rule f b :
  fieldErrors f b =
  map (invalid f) (List.filter (fun x => negb (ruleOn f x)) (elements (validated f b))).
Proof.
  destruct f; unfold fieldErrors, validated; cbn [chainOf getField];
    unfold nameChain, emailChain, subjectChain, messageChain;
    cbn [runChain snd]; rewrite app_nil_r; reflexivity.
Qed.

Lemma passes_rule f b : passes f b = rule f b.
Proof.
  change (passes f b) with (isEmpty (fieldErrors f b)).
  rewrite fieldErrors_rule. unfold rule.
  induction (elements (validated f b)) as [|x l IH]; [reflexivity|].
  cbn [List.filter forallb]. destruct (ruleOn f x); [exact IH|reflexivity].
Qed.

(** A field that is not an array has one entry or none. *)
Lemma fieldErrors_scalar f b :
  isArray (getField f b) = false ->
  fieldErrors f b = if passes f b then [] else [invalid f (validated f b)].
Proof.
  intros Hf. rewrite passes_rule, fieldErrors_rule. unfold rule.
  destruct f; cbn [validated getField] in *;
    match goal with
    | H : isArray ?v = false |- _ => destruct v; try discriminate H
    end;
    cbn [sanitize elements List.filter forallb map];
    match goal with
    | |- context [ruleOn ?f ?x] => destruct (ruleOn f x)
    end; reflexivity.
Qed.

(** [req.body] after the four chains: each field in its sanitized form. *)
Lemma normalized_eq b :
  normalized b =
  {| b_name := sanitized FName (b_name b);
     b_email := sanitized FEmail (b_email b);
     b_subject := sanitized FSubject (b_subject b);
     b_message := sanitized FMessage (b_message b) |}.
Proof.
  unfold normalized, sanitized. cbn. now rewrite !sanitize_sanitize.
Qed.

(** The errors of the request: those of each chain, in the order of the
    chains. *)
Lemma validationErrors_eq b :
  validationErrors b = concat (map (fun f => fieldErrors f b) fields).
Proof.
  unfold validationErrors, fields, fieldErrors. cbn.
  rewrite !app_nil_r, <- !app_assoc. reflexivity.
Qed.

Lemma allPass_errors b : allPass b = true <-> validationErrors b = [].
Proof.
  rewrite validationErrors_eq. unfold allPass, fields, passes.
  cbn [forallb map concat]. fold (fieldErrors FName b) (fieldErrors FEmail b)
    (fieldErrors FSubject b) (fieldErrors FMessage b).
  destruct (fieldErrors FName b), (fieldErrors FEmail b),
    (fieldErrors FSubject b), (fieldErrors FMessage b);
    cbn; split; intros H; try reflexivity; discriminate.
Qed.

Lemma allPass_false_errors b : allPass b = false <-> validationErrors b <> [].
Proof.
  rewrite <- allPass_errors. destruct (allPass b); split; congruence.
Qed.

(** An entry of the errors is the refusal of one element of one field. *)
Lemma in_validationErrors e b :
  In e (validationErrors b) <->
  exists f x, In x (elements (validated f b)) /\ ruleOn f x = false /\ e = invalid f x.
Proof.
  rewrite validationErrors_eq, in_concat. split.
  - intros [es [Hes He]]. apply in_map_iff in Hes as [f [<- _]].
    rewrite fieldErrors_rule in He. apply in_map_iff in He as [x [<- Hx]].
    apply filter_In in Hx as [Hx Hr]. exists f, x.
    split; [exact Hx|]. split; [|reflexivity]. now destruct (ruleOn f x).
  - intros (f & x & Hx & Hr & ->). exists (fieldErrors f b). split.
    + apply in_map_iff. exists f. split; [reflexivity|].
      unfold fields. destruct f; simpl; tauto.
    + rewrite fieldErrors_rule. apply in_map. apply filter_In.
      split; [exact Hx|]. now rewrite Hr.
Qed.

(** A field fails its rule exactly when some element is refused. *)
Lemma passes_false f b :
  passes f b = false <->
  exists x, In x (elements (validated f b)) /\ ruleOn f x = false.
Proof.
  rewrite passes_rule. unfold rule. split.
  - intros H. induction (elements (validated f b)) as [|x l IH]; [discriminate|].
    cbn [forallb] in H. destruct (ruleOn f x) eqn:E.
    + destruct (IH H) as (y & Hy & Hr). exists y. split; [now right|exact Hr].
    + exists x. split; [now left|exact E].
  - intros (x & Hx & Hr). destruct (forallb _ _) eqn:E; [|reflexivity].
    rewrite forallb_forall in E. rewrite (E x Hx) in Hr. discriminate.
Qed.

End Validation.

(** ** The router on the requests of interest *)

(** The router, one layer at a time. *)
Lemma dispatch_cons env l rest pending c :
  Express.dispatch env (l :: rest) pending c =
  if l_match l (c_req c) then
    match l_handle l, pending with
    | Middleware h, None =>
        match h env (visit (l_name l) c) with
        | Next c' => Express.dispatch env rest None c'
        | NextErr e c' => Express.dispatch env rest (Some e) c'
        | End_ status b c' => Express.respond status b c'
        end
    | OnError h, Some e =>
        match h e (visit (l_name l) c) with
        | Next c' => Express.dispatch env rest None c'
        | NextErr e' c' => Express.dispatch env rest (Some e') c'
        | End_ status b c' => Express.respond status b c'
        end
    | _, _ => Express.dispatch env rest pending c
    end
  else Express.dispatch env rest pending c.
Proof. reflexivity. Qed.

Ltac crunch :=
  cbn -[Express.dispatch RateLimit.increment contactHandler Nat.ltb N.ltb jsonLimit
        Cors.configureOrigin Validator.trim Validator.escape
        Validator.isLength JS.replaceAll] in *.

(** One layer of the stack. *)
Ltac step := rewrite dispatch_cons; crunch.

(** Up to the verdict of the limiter, for a request that it counts. *)
Ltac to_limiter i env s :=
  unfold handle, app, contactRoute; cbn [List.app map contactValidation];
  step; step; unfold RateLimit.middleware; crunch;
  destruct (RateLimit.increment limiter i (now env) (hits s)) as [nhits store];
  crunch.

Section Pipeline.
Context {P : Platform}.

(** The handler always ends the response itself, with status 400, 200
    or 500, and leaves the limiter's store alone. *)
Lemma contactHandler_ends env c :
  exists st bd c', contactHandler env c = End_ st bd c'
    /\ hits (c_state c') = hits (c_state c)
    /\ c_trace c' = c_trace c
    /\ st <> 429.
Proof.
  unfold contactHandler.
  destruct (negb _); [do 3 eexists; repeat split; lia|].
  destruct (JS.replace _ _ _); [|do 3 eexists; repeat split; lia].
  destruct (smtp env _); do 3 eexists; repeat split; lia.
Qed.

Lemma handle_contact env s r b st bd c' :
  method r = POST -> path r = PContact ->
  underLimit env s r = true -> reqBody r = Some b ->
  contactHandler env (contactCtx env s r b) = End_ st bd c' ->
  handle env s r = Express.respond st bd c'.
Proof.
  intros Hm Hp Ha Hb.
  destruct r as [m p i o jt bb pl]; cbn [method path] in Hm, Hp; subst m p.
  unfold underLimit, reqBody, contactCtx, counted, normalized, validationErrors in *.
  to_limiter i env s.
  apply negb_true_iff in Ha. rewrite Ha.
  step. unfold Cors.middleware. step. unfold Express.json. crunch.
  destruct jt;
    [destruct (jsonLimit <? bb)%N; [discriminate|];
     destruct (bb =? 0)%N; [injection Hb as <-|subst pl]
    |injection Hb as <-].
  all: crunch; do 4 (step; unfold validate; crunch); step.
  all: intros H;
    match goal with |- context [contactHandler ?e ?c] =>
      replace (contactHandler e c) with (End_ st bd c') by (rewrite <- H; reflexivity)
    end; reflexivity.
Qed.

Lemma handle_limited env s r :
  Express.useContact r = true -> underLimit env s r = false ->
  handle env s r = (tooManyRequests, counted env s r, [Helmet; Limiter]).
Proof.
  intros Hu Ha.
  destruct r as [m p i o jt bb pl].
  unfold underLimit, counted, tooManyRequests, Express.useContact in *.
  cbn [path] in Hu.
  destruct p; try discriminate; to_limiter i env s;
    apply negb_false_iff in Ha; rewrite Ha; reflexivity.
Qed.

Lemma handle_oversized env s r :
  method r = POST -> path r = PContact -> underLimit env s r = true ->
  jsonType r = true -> (jsonLimit < bodyBytes r)%N ->
  handle env s r =
  ({| r_status := 500; r_headers := Cors.configureOrigin corsOptions r;
      r_body := BFailure false "Internal Server Error" |},
   logged (ErrStack PayloadTooLarge) (counted env s r),
   [Helmet; Limiter; Cors; Json; ErrorHandler]).
Proof.
  intros Hm Hp Ha Hj Hb.
  destruct r as [m p i o jt bb pl]; cbn [method path jsonType bodyBytes] in *; subst m p jt.
  unfold underLimit, counted in *. apply N.ltb_lt in Hb.
  to_limiter i env s.
  apply negb_true_iff in Ha. rewrite Ha.
  step. unfold Cors.middleware. step. unfold Express.json. crunch.
  rewrite Hb. do 7 step. reflexivity.
Qed.

Lemma handle_malformed env s r :
  method r = POST -> path r = PContact -> underLimit env s r = true ->
  jsonType r = true -> (0 < bodyBytes r <= jsonLimit)%N -> payload r = None ->
  handle env s r =
  ({| r_status := 500; r_headers := Cors.configureOrigin corsOptions r;
      r_body := BFailure false "Internal Server Error" |},
   logged (ErrStack MalformedJson) (counted env s r),
   [Helmet; Limiter; Cors; Json; ErrorHandler]).
Proof.
  intros Hm Hp Ha Hj [Hz Hb] Hpl.
  destruct r as [m p i o jt bb pl];
    cbn [method path jsonType bodyBytes payload] in *; subst m p jt pl.
  unfold underLimit, counted in *. apply N.ltb_ge in Hb.
  assert ((bb =? 0)%N = false) as Hnz by (apply N.eqb_neq; lia).
  to_limiter i env s.
  apply negb_true_iff in Ha. rewrite Ha.
  step. unfold Cors.middleware. step. unfold Express.json. crunch.
  rewrite Hb, Hnz. do 7 step. reflexivity.
Qed.

Lemma handle_get_root env s r :
  method r = GET -> path r = PRoot ->
  handle env s r =
  ({| r_status := 200; r_headers := Cors.configureOrigin corsOptions r;
      r_body := BHealth "healthy" "Gussy Contact API" (toISOString (now env)) |},
   s, [Helmet; Cors; Health]).
Proof.
  intros Hm Hp.
  destruct r as [m p i o jt bb pl]; cbn [method path] in Hm, Hp; subst m p.
  reflexivity.
Qed.

(** What the stack does below the limiter: the store of hits and the
    trace so far are kept, and no response has status 429. *)
Lemma below_limiter env c :
  let out := Express.dispatch env (skipn 2 app) None c in
  hits (snd (fst out)) = hits (c_state c)
  /\ r_status (fst (fst out)) <> 429
  /\ exists rest, snd out = (c_trace c ++ Cors :: rest)%list.
Proof.
  destruct c as [[m p i o jt bb pl] b es hs st tr].
  unfold app, contactRoute. cbn [List.app map contactValidation skipn].
  cbv zeta. step. unfold Cors.middleware. crunch.
  destruct m.
  3: { destruct p.
       2: { step. unfold Express.json. crunch.
            destruct jt;
              [destruct (jsonLimit <? bb)%N;
               [|destruct (bb =? 0)%N; [|destruct pl]]|].
            2,3,5: do 4 (step; unfold validate; crunch); step;
              match goal with |- context [contactHandler ?e ?c] =>
                destruct (contactHandler_ends e c) as (s' & bd & c' & -> & Hh & Ht & Hs)
              end; crunch; rewrite Hh, Ht; crunch;
              (split; [reflexivity|split; [exact Hs|rewrite <- ?List.app_assoc; eexists; reflexivity]]).
            all: do 7 step; (split; [reflexivity|split; [lia|rewrite <- ?List.app_assoc; eexists; reflexivity]]). }
       all: do 8 step; cbn [Express.dispatch]; crunch; (split; [reflexivity|split; [lia|rewrite <- ?List.app_assoc; eexists; reflexivity]]). }
  all: destruct p; repeat step; cbn [Express.dispatch]; crunch; (split; [reflexivity|split; [lia|rewrite <- ?List.app_assoc; eexists; reflexivity]]).
Qed.

(** A request up to the verdict of the limiter. *)
Lemma handle_split env s r :
  handle env s r =
  if Express.useContact r then
    if underLimit env s r then
      Express.dispatch env (skipn 2 app) None
        {| c_req := r; c_body := emptyBody; c_errors := []; c_headers := [];
           c_state := counted env s r; c_trace := [Helmet; Limiter] |}
    else (tooManyRequests, counted env s r, [Helmet; Limiter])
  else
    Express.dispatch env (skipn 2 app) None
      {| c_req := r; c_body := emptyBody; c_errors := []; c_headers := [];
         c_state := s; c_trace := [Helmet] |}.
Proof.
  destruct r as [m p i o jt bb pl].
  unfold underLimit, counted, tooManyRequests, Express.useContact.
  cbn [path ip]. unfold handle, app, contactRoute.
  cbn [List.app map contactValidation skipn]. step.
  destruct p; step; try reflexivity.
  all: unfold RateLimit.middleware; crunch;
    destruct (RateLimit.increment limiter i (now env) (hits s)) as [nhits store];
    crunch; destruct (100 <? nhits)%nat; reflexivity.
Qed.

(** Only the limiter touches the store of hits. *)
Lemma handle_hits env s r :
  hits (snd (fst (handle env s r))) =
  if Express.useContact r then hits (counted env s r) else hits s.
Proof.
  rewrite handle_split.
  destruct (Express.useContact r); [destruct (underLimit env s r)|];
    try reflexivity; apply below_limiter.
Qed.

(** A request that the limiter lets through goes on to cors and is not
    answered 429. *)
Lemma handle_under_limit env s r :
  Express.useContact r = true -> underLimit env s r = true ->
  r_status (fst (fst (handle env s r))) <> 429
  /\ exists rest, snd (handle env s r) = Helmet :: Limiter :: Cors :: rest.
Proof.
  intros Hu Ha. rewrite handle_split, Hu, Ha.
  match goal with |- context [Express.dispatch env _ None ?c] =>
    destruct (below_limiter env c) as (_ & Hs & rest & Ht) end.
  split; [exact Hs|]. exists rest. exact Ht.
Qed.

End Pipeline.

(** ** The rate limiter over a run *)

Section Limiter.
Context {P : Platform}.

Lemma increment_other o key key' t (store : gmap string (nat * N)) :
  key <> key' -> snd (RateLimit.increment o key t store) !! key' = store !! key'.
Proof.
  intros Hne. unfold RateLimit.increment.
  destruct (match store !! key with Some _ => _ | None => _ end) as [h reset].
  simpl. now rewrite lookup_insert_ne.
Qed.

(** A counted request of [key] inside the window is hit number [n + 1]. *)
Lemma increment_inv key t0 n s t :
  windowInv key t0 n s ->
  (t0 <= t < t0 + RateLimit.windowMs limiter)%N ->
  fst (RateLimit.increment limiter key t (hits s)) = S n
  /\ exists reset,
       snd (RateLimit.increment limiter key t (hits s)) !! key = Some (S n, reset)
       /\ (t0 + RateLimit.windowMs limiter <= reset)%N.
Proof.
  intros Hinv Ht. unfold RateLimit.increment.
  destruct n as [|n]; cbn [windowInv] in Hinv.
  - unfold freshAt in Hinv.
    destruct (hits s !! key) as [[h reset]|].
    + assert ((reset <=? t)%N = true) as -> by (apply N.leb_le; lia).
      cbn [fst snd]. split; [reflexivity|]. eexists. rewrite lookup_insert_eq.
      split; [reflexivity|lia].
    + cbn [fst snd]. split; [reflexivity|]. eexists. rewrite lookup_insert_eq.
      split; [reflexivity|lia].
  - destruct Hinv as [reset [-> Hr]].
    assert ((reset <=? t)%N = false) as -> by (apply N.leb_gt; lia).
    cbn [fst snd]. split; [reflexivity|]. exists reset. rewrite lookup_insert_eq.
    split; [reflexivity|lia].
Qed.

Lemma windowInv_other key t0 n s s' :
  hits s' !! key = hits s !! key -> windowInv key t0 n s -> windowInv key t0 n s'.
Proof.
  intros H. destruct n; simpl; unfold freshAt; now rewrite H.
Qed.

Lemma handle_inv key t0 n s env r :
  windowInv key t0 n s ->
  (t0 <= now env < t0 + RateLimit.windowMs limiter)%N ->
  windowInv key t0 (if countsFor key (env, r) then S n else n) (snd (fst (handle env s r))).
Proof.
  intros Hinv Ht. unfold countsFor. simpl fst; simpl snd.
  pose proof (handle_hits env s r) as Hh.
  destruct (Express.useContact r); simpl andb.
  - destruct (String.eqb_spec (ip r) key) as [Heq|Hne].
    + destruct (increment_inv _ _ _ _ _ Hinv Ht) as [_ [reset [Hl Hr]]].
      cbn [windowInv]. exists reset. rewrite Hh. unfold counted. cbn [hits].
      rewrite Heq. auto.
    + eapply windowInv_other; [|exact Hinv].
      rewrite Hh. simpl. now apply increment_other.
  - eapply windowInv_other; [|exact Hinv]. now rewrite Hh.
Qed.

Lemma serve_cons s env r rest :
  serve s ((env, r) :: rest) =
  ((fst (fst (handle env s r)), snd (handle env s r))
     :: fst (serve (snd (fst (handle env s r))) rest),
   snd (serve (snd (fst (handle env s r))) rest)).
Proof.
  simpl. destruct (handle env s r) as [[res s'] tr]. simpl.
  now destruct (serve s' rest).
Qed.

Lemma serve_inv key t0 rs : forall n s,
  windowInv key t0 n s -> inWindow t0 rs ->
  windowInv key t0 (n + hitsOf key rs) (snd (serve s rs)).
Proof.
  induction rs as [|[env r] rest IH]; intros n s Hinv Hw.
  - simpl. now rewrite Nat.add_0_r.
  - rewrite serve_cons. simpl snd.
    apply Forall_cons_iff in Hw as [Ht Hw]. simpl in Ht.
    pose proof (handle_inv key t0 n s env r Hinv Ht) as Hstep.
    specialize (IH _ _ Hstep Hw).
    unfold hitsOf in *. simpl List.filter.
    destruct (countsFor key (env, r)); simpl List.length.
    + now rewrite Nat.add_succ_r.
    + exact IH.
Qed.

Lemma underLimit_inv key t0 n s env r :
  windowInv key t0 n s ->
  (t0 <= now env < t0 + RateLimit.windowMs limiter)%N ->
  ip r = key ->
  underLimit env s r = (n <? 100)%nat.
Proof.
  intros Hinv Ht <-. unfold underLimit.
  destruct (increment_inv _ _ _ _ _ Hinv Ht) as [-> _].
  change (RateLimit.max limiter) with 100.
  destruct (Nat.ltb_spec 100 (S n)), (Nat.ltb_spec n 100); simpl; try reflexivity; lia.
Qed.

End Limiter.

(** ** The handler of POST /contact *)

Section Handler.
Context {P : Platform}.

Lemma contactHandler_invalid env s r b :
  allPass b = false ->
  contactHandler env (contactCtx env s r b) =
  End_ 400 (BErrors (validationErrors b)) (contactCtx env s r b).
Proof.
  intros H. apply allPass_false_errors in H.
  unfold contactHandler. cbn [c_errors contactCtx].
  destruct (validationErrors b); [congruence|reflexivity].
Qed.

(** After the chains a message is a string unless it came as an array. *)
Lemma replace_message b :
  JS.replace (b_message (normalized b)) JS.nl "<br>" =
  if isArray (b_message b) then None
  else Some (JS.replaceAll JS.nl "<br>" (JS.String_ (b_message (normalized b)))).
Proof.
  rewrite normalized_eq. cbn [b_message sanitized].
  destruct (b_message b); reflexivity.
Qed.

Lemma contactHandler_valid env s r b :
  allPass b = true ->
  isArray (b_message b) = false ->
  contactHandler env (contactCtx env s r b) =
  match smtp env (mailFor b (now env)) with
  | Accepted =>
      End_ 200 (BSuccess true "Your message has been sent successfully!")
           (withState (sent (mailFor b (now env)) (counted env s r)) (contactCtx env s r b))
  | Rejected cause =>
      End_ 500 (BFailure false "Message failed to send. Please try again later.")
           (withState (logged (EmailSendError (TransportError cause))
                         (sent (mailFor b (now env)) (counted env s r)))
                      (contactCtx env s r b))
  end.
Proof.
  intros H Hm. apply allPass_errors in H.
  unfold contactHandler. cbn [c_errors c_body contactCtx]. rewrite H.
  cbn [isEmpty negb]. rewrite replace_message, Hm. reflexivity.
Qed.

(** A message that came as an array passes the chains as an array, and
    the handler's [message.replace] throws before anything is sent. *)
Lemma contactHandler_array env s r b :
  allPass b = true ->
  isArray (b_message b) = true ->
  contactHandler env (contactCtx env s r b) =
  End_ 500 (BFailure false "Message failed to send. Please try again later.")
       (withState (logged (EmailSendError TypeError) (counted env s r))
                  (contactCtx env s r b)).
Proof.
  intros H Hm. apply allPass_errors in H.
  unfold contactHandler. cbn [c_errors c_body contactCtx]. rewrite H.
  cbn [isEmpty negb]. rewrite replace_message, Hm. reflexivity.
Qed.

End Handler.

(** ** The claims *)

(** C1, as amended. A POST to /contact that the limiter lets through,
    whose JSON body passes all four rules with a message that is not an
    array, and whose send the transport accepts, is answered 200 with
    the body
    {success: true, message: 'Your message has been sent successfully!'};
    exactly one send is attempted; its recipient is
    saadnadeem962@gmail.com and its reply-to is the submitted email as
    [normalizeEmail] rewrote it. *)
Theorem contact_success {P : Platform} env s r b :
  method r = POST -> path r = PContact ->
  underLimit env s r = true -> reqBody r = Some b ->
  allPass b = true ->
  isArray (b_message b) = false ->
  smtp env (mailFor b (now env)) = Accepted ->
  handle env s r =
    ({| r_status := 200; r_headers := Cors.configureOrigin corsOptions r;
        r_body := BSuccess true "Your message has been sent successfully!" |},
     sent (mailFor b (now env)) (counted env s r), contactTrace)
  /\ outbox (snd (fst (handle env s r))) = mailFor b (now env) :: outbox s
  /\ m_replyTo (mailFor b (now env)) = sanitize normalizeEmail (b_email b)
  /\ (isArray (b_email b) = false ->
        m_replyTo (mailFor b (now env)) = normalizeEmail (toString (b_email b)))
  /\ m_to (mailFor b (now env)) = "saadnadeem962@gmail.com".
Proof.
  intros Hm Hp Ha Hb Hv Harr Hs.
  assert (handle env s r =
    ({| r_status := 200; r_headers := Cors.configureOrigin corsOptions r;
        r_body := BSuccess true "Your message has been sent successfully!" |},
     sent (mailFor b (now env)) (counted env s r), contactTrace)) as E.
  { erewrite handle_contact; eauto; [|rewrite contactHandler_valid, Hs; eauto].
    reflexivity. }
  rewrite E. split; [reflexivity|]. split; [reflexivity|].
  unfold mailFor, mailOptions. cbn [m_replyTo m_to]. rewrite normalized_eq.
  cbn [b_email sanitized]. split; [reflexivity|]. split; [|reflexivity].
  intros He. destruct (b_email b); try reflexivity. discriminate.
Qed.

(** A run of C1 on a concrete submission. *)
Lemma contact_success_witness :
  let b := Example.body "Ann" "ann@example.org" "Hi" "Hello" in
  let env := {| now := 0; smtp := Example.up |} in
  r_status (fst (fst (@handle Example.platform env initialState (Example.post b)))) = 200
  /\ outbox (snd (fst (@handle Example.platform env initialState (Example.post b))))
     = [@mailFor Example.platform b 0].
Proof.
  intros b env.
  destruct (@contact_success Example.platform env initialState (Example.post b) b)
    as (E & Ho & _); try reflexivity.
  split; [now rewrite E|exact Ho].
Defined.

(** C1 as it is stated fails, twice. The submission Ann@Example.ORG is
    valid and sent, and the reply-to of the mail is ann@example.org, not
    the submitted address. And a submission whose message is the array
    ['a', 'b'] passes all four rules, the transport is ready to accept,
    yet the answer is 500 and no send is attempted: [message.replace]
    throws a TypeError. *)
Lemma contact_reply_to_not_submitted :
  let env := {| now := 0; smtp := Example.up |} in
  (let b := Example.body "Ann" "Ann@Example.ORG" "Hi" "Hello" in
   let out := @handle Example.platform env initialState (Example.post b) in
   @allPass Example.platform b = true
   /\ r_status (fst (fst out)) = 200
   /\ exists mail, outbox (snd (fst out)) = [mail]
                   /\ m_replyTo mail = VString "ann@example.org"
                   /\ m_replyTo mail <> b_email b)
  /\ (let b := {| b_name := VString "Ann"; b_email := VString "ann@example.org";
                  b_subject := VString "Hi";
                  b_message := VArray [VString "a"; VString "b"] |} in
      let out := @handle Example.platform env initialState (Example.post b) in
      @allPass Example.platform b = true
      /\ r_status (fst (fst out)) = 500
      /\ outbox (snd (fst out)) = []
      /\ console (snd (fst out)) = [EmailSendError TypeError]).
Proof.
  cbv zeta. split.
  - split; [reflexivity|]. split; [reflexivity|].
    eexists. split; [vm_compute; reflexivity|]. split; [reflexivity|discriminate].
  - repeat split; reflexivity.
Qed.



(** C3, as amended. For a name that is not an array, the name rule
    accepts exactly the names whose trimmed length is between 2 and 100:
    trimmed length 1 is rejected, 2 and 100 are accepted, 101 is
    rejected. An array is checked element by element and accepted
    exactly when every element has a trimmed length between 2 and 100,
    so the empty array is accepted. A rejected name is answered 400
    with an error entry naming the field name. *)
Theorem name_rule {P : Platform} :
  (forall b, isArray (b_name b) = false ->
             (passes FName b = true <->
              2 <= String.length (Validator.trim (toString (b_name b))) <= 100))
  /\ (forall b, isArray (b_name b) = false ->
                String.length (Validator.trim (toString (b_name b))) = 1 ->
                passes FName b = false)
  /\ (forall b, isArray (b_name b) = false ->
                String.length (Validator.trim (toString (b_name b))) = 2 ->
                passes FName b = true)
  /\ (forall b, isArray (b_name b) = false ->
                String.length (Validator.trim (toString (b_name b))) = 100 ->
                passes FName b = true)
  /\ (forall b, isArray (b_name b) = false ->
                String.length (Validator.trim (toString (b_name b))) = 101 ->
                passes FName b = false)
  /\ (forall b, passes FName b = true <->
                Forall (fun x => 2 <= String.length (Validator.trim (toString x)) <= 100)
                       (elements (b_name b)))
  /\ (forall env s r b,
        method r = POST -> path r = PContact ->
        underLimit env s r = true -> reqBody r = Some b ->
        passes FName b = false ->
        r_status (fst (fst (handle env s r))) = 400
        /\ exists es, r_body (fst (fst (handle env s r))) = BErrors es
                      /\ exists e, In e es /\ e_param e = "name").
Proof.
  assert (forall b, passes FName b = true <->
            Forall (fun x => 2 <= String.length (Validator.trim (toString x)) <= 100)
                   (elements (b_name b))) as Hall.
  { intros b. rewrite passes_rule. unfold rule, validated. cbn [getField].
    rewrite elements_sanitize, forallb_forall, List.Forall_forall. split.
    - intros H x Hx.
      specialize (H _ (in_map (fun x => VString (Validator.trim (toString x))) _ _ Hx)).
      cbn [ruleOn toString JS.String_] in H. unfold Validator.isLength in H.
      apply andb_true_iff in H as [H1 H2]. apply Nat.leb_le in H1, H2. lia.
    - intros H y Hy. apply in_map_iff in Hy as (x & <- & Hx). specialize (H x Hx).
      cbn [ruleOn toString JS.String_]. unfold Validator.isLength.
      apply andb_true_iff. rewrite !Nat.leb_le. lia. }
  assert (forall b, isArray (b_name b) = false ->
             (passes FName b = true <->
              2 <= String.length (Validator.trim (toString (b_name b))) <= 100)) as Hiff.
  { intros b Hb. rewrite Hall.
    assert (elements (b_name b) = [b_name b]) as -> by (destruct (b_name b); try reflexivity; discriminate).
    split; [intros H; now inversion H|intros H; now constructor]. }
  split; [exact Hiff|].
  split; [|split; [|split; [|split; [|split; [exact Hall|]]]]].
  - intros b Hb H. destruct (passes FName b) eqn:E; [|reflexivity]. apply Hiff in E; [lia|exact Hb].
  - intros b Hb H. apply Hiff; [exact Hb|lia].
  - intros b Hb H. apply Hiff; [exact Hb|lia].
  - intros b Hb H. destruct (passes FName b) eqn:E; [|reflexivity]. apply Hiff in E; [lia|exact Hb].
  - intros env s r b Hm Hp Ha Hb Hf.
    assert (allPass b = false) as Hv.
    { unfold allPass, fields. simpl. now rewrite Hf. }
    rewrite (handle_contact env s r b _ _ _ Hm Hp Ha Hb (contactHandler_invalid env s r b Hv)).
    split; [reflexivity|].
    eexists. split; [reflexivity|].
    apply passes_false in Hf as (x & Hx & Hr).
    exists (invalid FName x). split; [|reflexivity].
    apply in_validationErrors. eauto.
Qed.

(** The four lengths of C3 on concrete names, and the 400 of a
    one-letter name. *)
Lemma name_rule_witness :
  let P := Example.platform in
  let named n := Example.body n "ann@example.org" "Hi" "Hello" in
  passes FName (named "A") = false
  /\ passes FName (named " Al ") = true
  /\ passes FName (named (repeatChar "a" 100)) = true
  /\ passes FName (named (repeatChar "a" 101)) = false
  /\ r_status (fst (fst (handle {| now := 0; smtp := Example.up |} initialState
                                 (Example.post (named "A"))))) = 400.
Proof.
  intros P named.
  destruct (@name_rule P) as (_ & H1 & H2 & H100 & H101 & _ & Hres).
  split; [apply H1; reflexivity|].
  split; [apply H2; reflexivity|].
  split; [apply H100; reflexivity|].
  split; [apply H101; reflexivity|].
  apply (Hres {| now := 0; smtp := Example.up |} initialState
               (Example.post (named "A")) (named "A")); reflexivity.
Defined.

(** C3 as it is stated fails on arrays. The empty array is accepted as a
    name, though it has no trimmed length between 2 and 100: the
    submission is answered 200 and a mail is sent. And ['a', 'bcd'],
    which a template prints as the five characters a,bcd, is rejected
    for its first element. *)
Lemma name_rule_accepts_the_empty_array :
  let P := Example.platform in
  let env := {| now := 0; smtp := Example.up |} in
  (let b := {| b_name := VArray []; b_email := VString "ann@example.org";
               b_subject := VString "Hi"; b_message := VString "Hello" |} in
   let out := handle env initialState (Example.post b) in
   passes FName b = true
   /\ String.length (Validator.trim (toString (b_name b))) = 0
   /\ r_status (fst (fst out)) = 200
   /\ List.length (outbox (snd (fst out))) = 1)
  /\ (let b := {| b_name := VArray [VString "a"; VString "bcd"];
                  b_email := VString "ann@example.org";
                  b_subject := VString "Hi"; b_message := VString "Hello" |} in
      String.length (Validator.trim (JS.String_ (b_name b))) = 5
      /\ passes FName b = false
      /\ r_status (fst (fst (handle env initialState (Example.post b)))) = 400).
Proof.
  cbv zeta. repeat split; reflexivity.
Qed.

(** C4. A valid submission whose send the transport rejects is answered
    500 with the body
    {success: false, error: 'Message failed to send. Please try again later.'};
    the response is [sendFailed r], which is built from the request
    alone: the cause of the failure goes to the console and nowhere
    into the response. The cause is the transport's, unless the message
    came as an array: then the handler failed before the send, and the
    cause is its own TypeError. *)
Theorem send_failure_is_generic {P : Platform} env s r b cause :
  method r = POST -> path r = PContact ->
  underLimit env s r = true -> reqBody r = Some b ->
  allPass b = true ->
  smtp env (mailFor b (now env)) = Rejected cause ->
  fst (fst (handle env s r)) = sendFailed r
  /\ r_status (sendFailed r) = 500
  /\ r_body (sendFailed r) =
       BFailure false "Message failed to send. Please try again later."
  /\ console (snd (fst (handle env s r))) =
       EmailSendError (if isArray (b_message b) then TypeError
                       else TransportError cause) :: console s.
Proof.
  intros Hm Hp Ha Hb Hv Hs.
  destruct (isArray (b_message b)) eqn:Harr.
  - erewrite handle_contact; eauto; [|rewrite contactHandler_array; eauto].
    repeat split.
  - erewrite handle_contact; eauto; [|rewrite contactHandler_valid, Hs; eauto].
    repeat split.
Qed.

(** A run of C4 with the transport down. *)
Lemma send_failure_is_generic_witness :
  let b := Example.body "Ann" "ann@example.org" "Hi" "Hello" in
  let env := {| now := 0; smtp := Example.down |} in
  let out := @handle Example.platform env initialState (Example.post b) in
  fst (fst out) =
    {| r_status := 500; r_headers := [("Vary", "Origin")];
       r_body := BFailure false "Message failed to send. Please try again later." |}
  /\ console (snd (fst out)) =
       [EmailSendError (TransportError "Invalid login: 535-5.7.8")].
Proof.
  intros b env out.
  destruct (@send_failure_is_generic Example.platform env initialState
              (Example.post b) b "Invalid login: 535-5.7.8")
    as (E & _ & _ & Hc); try reflexivity.
  split; [exact E|exact Hc].
Defined.

(** C7. For a POST to /contact that reaches the route, the four chains
    all run, in order, whatever the earlier ones found; the errors of
    the request are those of every violated rule, one entry for each
    value refused (one for a field that is not an array); and the
    submission is either rejected whole (400 with all the entries,
    nothing sent) or accepted whole: the four fields are left in their
    sanitized form (trimmed and escaped, the email normalized, an array
    element by element), and the mail, which is sent unless the message
    is an array, is made of them. *)
Theorem validation_all_or_nothing {P : Platform} env s r b :
  method r = POST -> path r = PContact ->
  underLimit env s r = true -> reqBody r = Some b ->
  snd (handle env s r) = contactTrace
  /\ validationErrors b = concat (map (fun f => fieldErrors f b) fields)
  /\ (forall f, fieldErrors f b =
                map (invalid f)
                    (List.filter (fun x => negb (ruleOn f x))
                                 (elements (validated f b))))
  /\ (forall f, isArray (getField f b) = false ->
                fieldErrors f b =
                if passes f b then [] else [invalid f (validated f b)])
  /\ (allPass b = false ->
        r_status (fst (fst (handle env s r))) = 400
        /\ r_body (fst (fst (handle env s r))) = BErrors (validationErrors b)
        /\ outbox (snd (fst (handle env s r))) = outbox s)
  /\ (allPass b = true ->
        outbox (snd (fst (handle env s r))) =
          (if isArray (b_message b) then outbox s
           else mailFor b (now env) :: outbox s)
        /\ (isArray (b_message b) = false ->
            mailFor b (now env) =
              mailOptions (normalized b)
                (JS.replaceAll JS.nl "<br>"
                   (Validator.escape (Validator.trim (toString (b_message b)))))
                (now env))
        /\ normalized b =
             {| b_name := sanitized FName (b_name b);
                b_email := sanitized FEmail (b_email b);
                b_subject := sanitized FSubject (b_subject b);
                b_message := sanitized FMessage (b_message b) |}
        /\ (forall f, isArray (getField f b) = false ->
              getField f (normalized b) =
              match f with
              | FEmail => normalizeEmail (toString (b_email b))
              | _ => VString (Validator.escape
                                (Validator.trim (toString (getField f b))))
              end)).
Proof.
  intros Hm Hp Ha Hb.
  split; [|split; [|split; [|split; [|split]]]].
  - destruct (allPass b) eqn:Hv.
    + destruct (isArray (b_message b)) eqn:Harr.
      * now rewrite (handle_contact env s r b _ _ _ Hm Hp Ha Hb
                       (contactHandler_array env s r b Hv Harr)).
      * pose proof (contactHandler_valid env s r b Hv Harr) as Hc.
        destruct (smtp env (mailFor b (now env)));
          now rewrite (handle_contact env s r b _ _ _ Hm Hp Ha Hb Hc).
    + now rewrite (handle_contact env s r b _ _ _ Hm Hp Ha Hb
                     (contactHandler_invalid env s r b Hv)).
  - apply validationErrors_eq.
  - intros f. apply fieldErrors_rule.
  - intros f Hf. rewrite passes_rule, fieldErrors_rule. unfold rule.
    destruct f; cbn [validated getField] in *;
      match goal with
      | H : isArray ?v = false |- _ => destruct v; try discriminate H
      end;
      cbn [sanitize elements List.filter forallb map];
      match goal with
      | |- context [ruleOn ?f ?x] => destruct (ruleOn f x)
      end; reflexivity.
  - intros Hv.
    now rewrite (handle_contact env s r b _ _ _ Hm Hp Ha Hb
                   (contactHandler_invalid env s r b Hv)).
  - intros Hv. split; [|split; [|split]].
    + destruct (isArray (b_message b)) eqn:Harr.
      * now rewrite (handle_contact env s r b _ _ _ Hm Hp Ha Hb
                       (contactHandler_array env s r b Hv Harr)).
      * pose proof (contactHandler_valid env s r b Hv Harr) as Hc.
        destruct (smtp env (mailFor b (now env)));
          now rewrite (handle_contact env s r b _ _ _ Hm Hp Ha Hb Hc).
    + intros Harr. unfold mailFor. rewrite normalized_eq.
      cbn [b_message sanitized].
      destruct (b_message b); try discriminate Harr; reflexivity.
    + apply normalized_eq.
    + intros f Hf. rewrite normalized_eq.
      destruct f; cbn [getField b_name b_email b_subject b_message sanitized] in *;
        match goal with
        | H : isArray ?v = false |- _ => destruct v; try discriminate H
        end; reflexivity.
Qed.

(** A run of C7: three rules violated at once, three entries, nothing
    sent. *)
Lemma validation_all_or_nothing_witness :
  let b := Example.body "A" "nobody" (repeatChar "s" 201) "Hello" in
  let env := {| now := 0; smtp := Example.up |} in
  let out := @handle Example.platform env initialState (Example.post b) in
  snd out = contactTrace
  /\ r_body (fst (fst out)) =
       BErrors [invalid FName (VString "A"); invalid FEmail (VString "nobody");
                invalid FSubject (VString (repeatChar "s" 201))]
  /\ outbox (snd (fst out)) = [].
Proof.
  intros b env out.
  destruct (@validation_all_or_nothing Example.platform env initialState
              (Example.post b) b) as (Ht & _ & _ & _ & Hrej & _); try reflexivity.
  destruct Hrej as (_ & Hb & Ho); [reflexivity|].
  split; [exact Ht|]. split; [exact Hb|exact Ho].
Defined.

(** C8. GET / is answered 200 with the body
    {status: 'healthy', service: 'Gussy Contact API', timestamp: <now>}
    and nothing else; the state is left as it was, and the answer is
    the same whatever the mail transport does. *)
Theorem health_always_ok {P : Platform} env s r :
  method r = GET -> path r = PRoot ->
  handle env s r =
    ({| r_status := 200; r_headers := Cors.configureOrigin corsOptions r;
        r_body := BHealth "healthy" "Gussy Contact API" (toISOString (now env)) |},
     s, [Helmet; Cors; Health])
  /\ forall env', now env' = now env -> handle env' s r = handle env s r.
Proof.
  intros Hm Hp. split; [now apply handle_get_root|].
  intros env' Hn. rewrite !handle_get_root by assumption. now rewrite Hn.
Qed.

(** A run of C8 with the transport down. *)
Lemma health_always_ok_witness :
  let r := {| method := GET; path := PRoot; ip := "203.0.113.7"; origin := None;
              jsonType := false; bodyBytes := 0; payload := None |} in
  @handle Example.platform {| now := 1700000000000; smtp := Example.down |} initialState r =
    ({| r_status := 200; r_headers := [("Vary", "Origin")];
        r_body := BHealth "healthy" "Gussy Contact API" "1700000000000" |},
     initialState, [Helmet; Cors; Health]).
Proof.
  intros r.
  exact (proj1 (@health_always_ok Example.platform
                  {| now := 1700000000000; smtp := Example.down |} initialState r
                  eq_refl eq_refl)).
Defined.

(** The last response of a run is that of its last request against the
    state the earlier ones left. *)
Lemma serve_snoc {P : Platform} s rs env r :
  serve s (rs ++ [(env, r)])%list =
  ((fst (serve s rs) ++
    [(fst (fst (handle env (snd (serve s rs)) r)), snd (handle env (snd (serve s rs)) r))])%list,
   snd (fst (handle env (snd (serve s rs)) r))).
Proof.
  revert s. induction rs as [|[env0 r0] rest IH]; intros s.
  - cbn [List.app]. rewrite serve_cons. reflexivity.
  - cbn [List.app]. rewrite !serve_cons, IH. reflexivity.
Qed.

(** C5. In a run whose requests all fall in one window of 15 minutes,
    opened when the client had no window running, a request of the
    client to /contact passes the limiter as long as fewer than 100 of
    its requests came before it, so the first 100 pass;
    from the 101st on the answer is 429 with the text
    'Too many requests. Please try again later.', only helmet and the
    limiter have run, and nothing is sent or logged. *)
Theorem rate_limit_ceiling {P : Platform} key t0 s rs env r :
  freshAt key t0 s ->
  inWindow t0 (rs ++ [(env, r)])%list ->
  ip r = key -> Express.useContact r = true ->
  let before := snd (serve s rs) in
  let out := handle env before r in
  fst (serve s (rs ++ [(env, r)])%list) = (fst (serve s rs) ++ [(fst (fst out), snd out)])%list
  /\ (hitsOf key rs < 100 ->
        underLimit env before r = true
        /\ r_status (fst (fst out)) <> 429
        /\ exists rest, snd out = Helmet :: Limiter :: Cors :: rest)
  /\ (100 <= hitsOf key rs ->
        fst (fst out) = tooManyRequests
        /\ snd out = [Helmet; Limiter]
        /\ outbox (snd (fst out)) = outbox before
        /\ console (snd (fst out)) = console before).
Proof.
  intros Hf Hw Hk Hu before out.
  apply Forall_app in Hw as [Hrs Hr].
  apply Forall_cons_iff in Hr as [Ht _]. cbn [fst] in Ht.
  assert (windowInv key t0 (hitsOf key rs) before) as Hinv.
  { change (freshAt key t0 s) with (windowInv key t0 0 s) in Hf.
    exact (serve_inv key t0 rs 0 s Hf Hrs). }
  pose proof (underLimit_inv key t0 _ before env r Hinv Ht Hk) as Ha.
  split; [unfold out, before; now rewrite serve_snoc|].
  split.
  - intros Hn. apply Nat.ltb_lt in Hn. rewrite Hn in Ha.
    split; [exact Ha|]. exact (handle_under_limit env before r Hu Ha).
  - intros Hn. apply Nat.ltb_ge in Hn. rewrite Hn in Ha.
    unfold out. rewrite (handle_limited env before r Hu Ha). repeat split.
Qed.

(** A run of C5: one hundred valid submissions of one client, then one
    more; and the hundredth itself. *)
Lemma rate_limit_ceiling_witness :
  let env := {| now := 1000; smtp := Example.up |} in
  let r := Example.post (Example.body "Ann" "ann@example.org" "Hi" "Hello") in
  let after n := snd (@serve Example.platform initialState (List.repeat (env, r) n)) in
  (fst (fst (@handle Example.platform env (after 100) r)) = tooManyRequests
   /\ snd (@handle Example.platform env (after 100) r) = [Helmet; Limiter])
  /\ r_status (fst (fst (@handle Example.platform env (after 99) r))) <> 429.
Proof.
  intros env r after.
  assert (forall n, inWindow 0 (List.repeat (env, r) n ++ [(env, r)])%list) as Hw.
  { intros n. apply Forall_app. split; [|repeat constructor; cbn; lia].
    apply List.Forall_forall. intros x Hx. apply repeat_spec in Hx as ->. cbn. lia. }
  split.
  - destruct (@rate_limit_ceiling Example.platform "203.0.113.7" 0 initialState
                (List.repeat (env, r) 100) env r) as (_ & _ & H);
      [exact I|apply Hw|reflexivity|reflexivity|].
    destruct H as (E & Ht & _); [vm_compute; lia|]. split; [exact E|exact Ht].
  - destruct (@rate_limit_ceiling Example.platform "203.0.113.7" 0 initialState
                (List.repeat (env, r) 99) env r) as (_ & H & _);
      [exact I|apply Hw|reflexivity|reflexivity|].
    destruct H as (_ & Hs & _); [vm_compute; lia|]. exact Hs.
Defined.

(** C6, as amended. A POST to /contact that the limiter lets through and
    that declares a JSON body longer than 10240 bytes is refused before
    any chain runs: [express.json] passes the error on, the final error
    handler answers 500 with
    {success: false, error: 'Internal Server Error'}, which is no
    field-error body, and nothing is sent. *)
Theorem oversized_json_rejected {P : Platform} env s r :
  method r = POST -> path r = PContact ->
  underLimit env s r = true ->
  jsonType r = true -> (jsonLimit < bodyBytes r)%N ->
  handle env s r =
    ({| r_status := 500; r_headers := Cors.configureOrigin corsOptions r;
        r_body := BFailure false "Internal Server Error" |},
     logged (ErrStack PayloadTooLarge) (counted env s r),
     [Helmet; Limiter; Cors; Json; ErrorHandler])
  /\ (forall f, ~ In (Validate f) (snd (handle env s r)))
  /\ ~ In ContactHandler (snd (handle env s r))
  /\ (forall es, r_body (fst (fst (handle env s r))) <> BErrors es)
  /\ outbox (snd (fst (handle env s r))) = outbox s.
Proof.
  intros Hm Hp Ha Hj Hb.
  rewrite (handle_oversized env s r Hm Hp Ha Hj Hb).
  split; [reflexivity|]. cbn [fst snd r_body].
  split; [|split; [|split; [|reflexivity]]].
  - intros f [H|[H|[H|[H|[H|[]]]]]]; discriminate.
  - intros [H|[H|[H|[H|[H|[]]]]]]; discriminate.
  - intros es H. discriminate.
Qed.

(** A run of C6, as amended: 10241 bytes of JSON. *)
Lemma oversized_json_rejected_witness :
  let r := {| method := POST; path := PContact; ip := "203.0.113.7";
              origin := None; jsonType := true; bodyBytes := 10241;
              payload := Some (Example.body "Ann" "ann@example.org" "Hi" "Hello") |} in
  let out := @handle Example.platform {| now := 0; smtp := Example.up |} initialState r in
  fst (fst out) =
    {| r_status := 500; r_headers := [("Vary", "Origin")];
       r_body := BFailure false "Internal Server Error" |}
  /\ outbox (snd (fst out)) = [].
Proof.
  intros r out.
  destruct (@oversized_json_rejected Example.platform
              {| now := 0; smtp := Example.up |} initialState r)
    as (E & _ & _ & _ & Ho); try reflexivity.
  split; [unfold out; now rewrite E|exact Ho].
Defined.

(** C6 as it is stated fails. A body of 20480 bytes that is not
    declared as JSON is left unread: the chains run on an empty
    [req.body] and the answer is the 400 field-error body. And the
    answer to an oversized JSON body is not one of its own: a short body
    that is not valid JSON gets the very same response. *)
Lemma oversized_body_not_always_refused :
  let env := {| now := 0; smtp := Example.up |} in
  let plain := {| method := POST; path := PContact; ip := "203.0.113.7";
                  origin := None; jsonType := false; bodyBytes := 20480;
                  payload := None |} in
  let big := {| method := POST; path := PContact; ip := "203.0.113.7";
                origin := None; jsonType := true; bodyBytes := 20480;
                payload := Some (Example.body "Ann" "ann@example.org" "Hi" "Hello") |} in
  let broken := {| method := POST; path := PContact; ip := "203.0.113.7";
                   origin := None; jsonType := true; bodyBytes := 12;
                   payload := None |} in
  ((jsonLimit < bodyBytes plain)%N
   /\ r_status (fst (fst (@handle Example.platform env initialState plain))) = 400
   /\ r_body (fst (fst (@handle Example.platform env initialState plain))) =
        BErrors [invalid FName (VString EmptyString); invalid FEmail VUndef]
   /\ In (Validate FName) (snd (@handle Example.platform env initialState plain)))
  /\ ((jsonLimit < bodyBytes big)%N /\ (bodyBytes broken <= jsonLimit)%N
      /\ fst (fst (@handle Example.platform env initialState big)) =
         fst (fst (@handle Example.platform env initialState broken))).
Proof.
  cbv zeta. split.
  - split; [reflexivity|]. split; [reflexivity|]. split; [reflexivity|].
    vm_compute. tauto.
  - split; [reflexivity|]. split; [vm_compute; discriminate|reflexivity].
Qed.

(** C9, on the code. The allow-list is the array ['*'], and an array
    is matched entry by entry with strict equality: the only origin the
    check accepts is the literal string '*'. The origin
    https://gussy.example is not accepted and its response carries no
    Access-Control-Allow-Origin header. Had the option been the string
    '*' itself, every request would have been given that header. *)
Theorem wildcard_entry_is_literal :
  (forall o, Cors.isOriginAllowed (Some o) allowedOrigins = true <-> o = "*")
  /\ Cors.isOriginAllowed (Some "https://gussy.example") allowedOrigins = false
  /\ r_headers (fst (fst (@handle Example.platform {| now := 0; smtp := Example.up |}
                            initialState
                            (Example.post (Example.body "Ann" "ann@example.org" "Hi" "Hello")))))
     = [("Vary", "Origin")]
  /\ (forall r, Cors.configureOrigin
                  {| Cors.o_origin := Cors.OriginString "*"; Cors.o_methods := ["POST"];
                     Cors.o_allowedHeaders := ["Content-Type"] |} r
                = [("Access-Control-Allow-Origin", "*")]).
Proof.
  split; [|repeat split].
  intros o. unfold Cors.isOriginAllowed, allowedOrigins. simpl.
  rewrite orb_false_r. apply String.eqb_eq.
Qed.

(** C10. In the chains of name, subject and message the length is
    checked on the trimmed value and the escaping is applied afterwards;
    the mail the handler sends is made of the escaped values. So a
    request whose name, subject and message are 100, 200 and 2000
    ampersands passes the three rules, and, its email passing too and
    the transport accepting, it is answered 200 and the mail sent
    carries values of 500, 1000 and 10000 characters. *)
Theorem escape_after_length_check {P : Platform} env s r b :
  method r = POST -> path r = PContact ->
  underLimit env s r = true -> reqBody r = Some b ->
  (passes FName b =
     forallb (fun x => Validator.isLength 2 (Some 100) (Validator.trim (toString x)))
             (elements (b_name b))
   /\ passes FSubject b =
        forallb (fun x => Validator.isLength 0 (Some 200) (Validator.trim (toString x)))
                (elements (b_subject b))
   /\ passes FMessage b =
        forallb (fun x => Validator.isLength 0 (Some 2000) (Validator.trim (toString x)))
                (elements (b_message b)))
  /\ (allPass b = true -> isArray (b_message b) = false ->
      exists m,
        outbox (snd (fst (handle env s r))) = m :: outbox s
        /\ m_subject m =
             "New Contact: " ++
             JS.String_ (sanitize (fun x => VString (Validator.escape (Validator.trim x)))
                                  (b_subject b))
        /\ m_html m =
             mailHtml
               (sanitize (fun x => VString (Validator.escape (Validator.trim x))) (b_name b))
               (sanitize normalizeEmail (b_email b))
               (sanitize (fun x => VString (Validator.escape (Validator.trim x))) (b_subject b))
               (JS.replaceAll JS.nl "<br>"
                  (Validator.escape (Validator.trim (toString (b_message b)))))
               (now env))
  /\ (b_name b = VString (repeatChar "&" 100) ->
      b_subject b = VString (repeatChar "&" 200) ->
      b_message b = VString (repeatChar "&" 2000) ->
      passes FEmail b = true ->
      (forall m, smtp env m = Accepted) ->
      passes FName b = true /\ passes FSubject b = true /\ passes FMessage b = true
      /\ r_status (fst (fst (handle env s r))) = 200
      /\ exists n su msg m,
           String.length n = 5 * 100
           /\ String.length su = 5 * 200
           /\ String.length msg = 5 * 2000
           /\ outbox (snd (fst (handle env s r))) = m :: outbox s
           /\ m_subject m = "New Contact: " ++ su
           /\ m_html m =
                mailHtml (VString n) (sanitize normalizeEmail (b_email b))
                         (VString su) msg (now env)).
Proof.
  intros Hm Hp Ha Hb.
  assert (Hsent : allPass b = true -> isArray (b_message b) = false ->
                  smtp env (mailFor b (now env)) = Accepted ->
                  r_status (fst (fst (handle env s r))) = 200
                  /\ outbox (snd (fst (handle env s r))) =
                       mailFor b (now env) :: outbox s).
  { intros Hv Harr Hs.
    pose proof (contactHandler_valid env s r b Hv Harr) as Hc. rewrite Hs in Hc.
    rewrite (handle_contact env s r b _ _ _ Hm Hp Ha Hb Hc). now split. }
  split; [|split].
  - rewrite !passes_rule. unfold rule, validated. cbn [getField].
    rewrite !elements_sanitize, !forallb_map. repeat split.
  - intros Hv Harr. exists (mailFor b (now env)). split; [|split].
    + pose proof (contactHandler_valid env s r b Hv Harr) as Hc.
      destruct (smtp env (mailFor b (now env)));
        now rewrite (handle_contact env s r b _ _ _ Hm Hp Ha Hb Hc).
    + unfold mailFor. now rewrite normalized_eq.
    + unfold mailFor. rewrite normalized_eq. cbn [mailOptions m_html b_name b_email b_subject b_message sanitized].
      destruct (b_message b); try discriminate Harr; reflexivity.
  - intros Hn Hsu Hmsg He Hs.
    assert (H1 : passes FName b = true)
      by (rewrite passes_rule; unfold rule, validated; cbn [getField];
          rewrite Hn; vm_compute; reflexivity).
    assert (H2 : passes FSubject b = true)
      by (rewrite passes_rule; unfold rule, validated; cbn [getField];
          rewrite Hsu; vm_compute; reflexivity).
    assert (H3 : passes FMessage b = true)
      by (rewrite passes_rule; unfold rule, validated; cbn [getField];
          rewrite Hmsg; vm_compute; reflexivity).
    assert (Hv : allPass b = true)
      by (unfold allPass, fields; cbn [forallb]; now rewrite H1, He, H2, H3).
    assert (Harr : isArray (b_message b) = false) by now rewrite Hmsg.
    destruct (Hsent Hv Harr (Hs _)) as [Hst Ho].
    split; [exact H1|]. split; [exact H2|]. split; [exact H3|].
    split; [exact Hst|].
    exists (Validator.escape (Validator.trim (repeatChar "&" 100))),
           (Validator.escape (Validator.trim (repeatChar "&" 200))),
           (JS.replaceAll JS.nl "<br>"
              (Validator.escape (Validator.trim (repeatChar "&" 2000)))),
           (mailFor b (now env)).
    split; [vm_compute; reflexivity|]. split; [vm_compute; reflexivity|].
    split; [vm_compute; reflexivity|]. split; [exact Ho|].
    unfold mailFor. rewrite normalized_eq.
    cbn [mailOptions m_subject m_html b_name b_email b_subject b_message sanitized].
    rewrite Hn, Hsu, Hmsg. split; reflexivity.
Qed.

(** The request of C10 sent to the server: answered 200, and the subject
    line of the mail carries the 1000 characters. *)
Lemma escape_after_length_check_witness :
  let b := {| b_name := VString (repeatChar "&" 100);
              b_email := VString "ann@example.org";
              b_subject := VString (repeatChar "&" 200);
              b_message := VString (repeatChar "&" 2000) |} in
  let r := {| method := POST; path := PContact; ip := "203.0.113.7";
              origin := Some "https://gussy.example"; jsonType := true;
              bodyBytes := 2400; payload := Some b |} in
  let out := @handle Example.platform {| now := 0; smtp := Example.up |}
                     initialState r in
  r_status (fst (fst out)) = 200
  /\ map (fun m => String.length (m_subject m)) (outbox (snd (fst out))) = [13 + 5 * 200].
Proof.
  intros b r out.
  destruct (@escape_after_length_check Example.platform
              {| now := 0; smtp := Example.up |} initialState r b
              eq_refl eq_refl eq_refl eq_refl) as (_ & _ & H).
  destruct (H eq_refl eq_refl eq_refl eq_refl (fun m => eq_refl))
    as (_ & _ & _ & Hst & n & su & msg & m & _ & Hl & _ & Ho & Hsu & _).
  split; [exact Hst|].
  subst out. rewrite Ho. cbn [map outbox initialState]. rewrite Hsu.
  f_equal. rewrite length_app_string, Hl. reflexivity.
Defined.

(** ** Further properties of the program *)

(** *** Sanitizers *)

Lemma forallChars_app p s1 s2 :
  forallChars p (s1 ++ s2) = forallChars p s1 && forallChars p s2.
Proof.
  induction s1 as [|a s1 IH]; [reflexivity|].
  rewrite app_cons. simpl. now rewrite IH, andb_assoc.
Qed.

Lemma escapeChar_safe a :
  forallChars (fun c => negb (isHtmlSpecial c)) (Validator.escapeChar a) = true.
Proof. destruct a as [[] [] [] [] [] [] [] []]; vm_compute; reflexivity. Qed.

Lemma escape_safe s :
  forallChars (fun c => negb (isHtmlSpecial c)) (Validator.escape s) = true.
Proof.
  induction s as [|a s IH]; [reflexivity|].
  now rewrite escape_cons, forallChars_app, escapeChar_safe, IH.
Qed.

Lemma ltrim_first s : notSpace (firstChar (Validator.ltrim s)).
Proof.
  induction s as [|a s IH]; simpl; [exact I|].
  destruct (JS.isSpace a) eqn:E; [exact IH|exact E].
Qed.

Lemma rtrim_fixed s : Validator.rtrim (Validator.rtrim s) = Validator.rtrim s.
Proof.
  induction s as [|a s IH]; [reflexivity|].
  simpl. destruct (Validator.rtrim s) as [|b t] eqn:E.
  - destruct (JS.isSpace a) eqn:Ha; simpl; [reflexivity|]. now rewrite Ha.
  - simpl in IH |- *. now rewrite IH.
Qed.

Lemma rtrim_first s :
  notSpace (firstChar s) -> firstChar (Validator.rtrim s) = firstChar s \/ Validator.rtrim s = EmptyString /\ s = EmptyString.
Proof.
  destruct s as [|a s]; simpl; [auto|]. intros Ha.
  destruct (Validator.rtrim s); [rewrite Ha|]; auto.
Qed.

Lemma ltrim_id s : notSpace (firstChar s) -> Validator.ltrim s = s.
Proof. destruct s as [|a s]; simpl; [reflexivity|]. now intros ->. Qed.

Lemma rtrim_last s : notSpace (lastChar (Validator.rtrim s)).
Proof.
  induction s as [|a s IH]; simpl; [exact I|].
  destruct (Validator.rtrim s) as [|b t] eqn:E.
  - destruct (JS.isSpace a) eqn:Ha; simpl; [exact I|exact Ha].
  - simpl in IH |- *. destruct (lastChar t); exact IH.
Qed.

Lemma ltrim_length s : String.length (Validator.ltrim s) <= String.length s.
Proof.
  induction s as [|a s IH]; simpl; [lia|]. destruct (JS.isSpace a); simpl; lia.
Qed.

Lemma rtrim_length s : String.length (Validator.rtrim s) <= String.length s.
Proof.
  induction s as [|a s IH]; simpl; [lia|].
  destruct (Validator.rtrim s); [destruct (JS.isSpace a)|]; simpl in *; lia.
Qed.

Lemma ltrim_spaces s : forallChars JS.isSpace s = true -> Validator.ltrim s = EmptyString.
Proof.
  induction s as [|a s IH]; simpl; [reflexivity|].
  intros [Ha Hs]%andb_true_iff. rewrite Ha. auto.
Qed.

Theorem trim_canonical s :
  Validator.trim (Validator.trim s) = Validator.trim s
  /\ notSpace (firstChar (Validator.trim s))
  /\ notSpace (lastChar (Validator.trim s))
  /\ String.length (Validator.trim s) <= String.length s.
Proof.
  unfold Validator.trim.
  assert (notSpace (firstChar (Validator.rtrim (Validator.ltrim s)))) as Hf.
  { pose proof (ltrim_first s) as H.
    destruct (rtrim_first _ H) as [->|[-> _]]; [exact H|exact I]. }
  split; [|split; [exact Hf|split; [apply rtrim_last|]]].
  - now rewrite (ltrim_id _ Hf), rtrim_fixed.
  - pose proof (ltrim_length s). pose proof (rtrim_length (Validator.ltrim s)). lia.
Qed.

Lemma replaceAll_no_char c r s :
  forallChars (fun a => negb (Ascii.eqb a c)) r = true ->
  forallChars (fun a => negb (Ascii.eqb a c)) (JS.replaceAll c r s) = true.
Proof.
  intros Hr. induction s as [|a s IH]; [reflexivity|].
  simpl. destruct (Ascii.eqb a c) eqn:E.
  - now rewrite forallChars_app, Hr, IH.
  - simpl. now rewrite E, IH.
Qed.

Lemma replaceAll_length c r s :
  String.length (JS.replaceAll c r s) + countChar c s =
  String.length s + String.length r * countChar c s.
Proof.
  induction s as [|a s IH]; [simpl; lia|].
  simpl. destruct (Ascii.eqb a c).
  - rewrite length_app_string. lia.
  - simpl. lia.
Qed.

(** *** The application as a decision table *)

Section Routing.
Context {P : Platform}.

Lemma contactOutcome_handle env s r b :
  method r = POST -> path r = PContact ->
  underLimit env s r = true -> reqBody r = Some b ->
  handle env s r = contactOutcome env s r b.
Proof.
  intros Hm Hp Ha Hb. unfold contactOutcome.
  destruct (allPass b) eqn:Hv.
  - destruct (isArray (b_message b)) eqn:Harr.
    + now rewrite (handle_contact env s r b _ _ _ Hm Hp Ha Hb
                     (contactHandler_array env s r b Hv Harr)).
    + pose proof (contactHandler_valid env s r b Hv Harr) as Hc.
      destruct (smtp env (mailFor b (now env)));
        now rewrite (handle_contact env s r b _ _ _ Hm Hp Ha Hb Hc).
  - now rewrite (handle_contact env s r b _ _ _ Hm Hp Ha Hb
                   (contactHandler_invalid env s r b Hv)).
Qed.

Lemma below_limiter_other env r st tr :
  Express.postContact r = false ->
  Express.dispatch env (skipn 2 app) None
    {| c_req := r; c_body := emptyBody; c_errors := []; c_headers := [];
       c_state := st; c_trace := tr |} =
  match method r with
  | OPTIONS =>
      ({| r_status := 204; r_headers := preflightHeaders r; r_body := BNone |},
       st, (tr ++ [Cors])%list)
  | _ =>
      if Express.getRoot r then
        ({| r_status := 200; r_headers := Cors.configureOrigin corsOptions r;
            r_body := BHealth "healthy" "Gussy Contact API" (toISOString (now env)) |},
         st, ((tr ++ [Cors]) ++ [Health])%list)
      else
        ({| r_status := 404; r_headers := Cors.configureOrigin corsOptions r;
            r_body := BNone |},
         st, (tr ++ [Cors])%list)
  end.
Proof.
  intros Hp. destruct r as [m p i o jt bb pl].
  unfold app, contactRoute, preflightHeaders, Express.postContact, Express.getRoot in *.
  cbn [List.app map contactValidation skipn method path] in *.
  step. unfold Cors.middleware. crunch.
  destruct m, p; try discriminate; try reflexivity; repeat step; reflexivity.
Qed.

Theorem handle_route env s r : handle env s r = route env s r.
Proof.
  unfold route.
  destruct (Express.useContact r) eqn:Hu; cbn [andb].
  - destruct (underLimit env s r) eqn:Ha; cbn [negb];
      [|now apply handle_limited].
    destruct (Express.postContact r) eqn:Hp.
    + assert (method r = POST /\ path r = PContact) as [Hm Hpa].
      { unfold Express.postContact in Hp.
        destruct (method r), (path r); try discriminate; auto. }
      rewrite Hm. destruct (reqBody r) as [b|] eqn:Hb.
      * now apply contactOutcome_handle.
      * unfold reqBody in Hb. destruct (jsonType r) eqn:Hj; [|discriminate].
        destruct (jsonLimit <? bodyBytes r)%N eqn:Hl.
        -- apply handle_oversized; try assumption. now apply N.ltb_lt.
        -- destruct (bodyBytes r =? 0)%N eqn:Hz; [discriminate|].
           apply handle_malformed; try assumption.
           apply N.ltb_ge in Hl. apply N.eqb_neq in Hz. lia.
    + rewrite handle_split, Hu, Ha, (below_limiter_other _ _ _ _ Hp).
      assert (Express.getRoot r = false) as ->.
      { unfold Express.getRoot, Express.useContact in *.
        destruct (method r), (path r); try discriminate; reflexivity. }
      destruct (method r); reflexivity.
  - assert (Express.postContact r = false) as Hp.
    { unfold Express.postContact, Express.useContact in *.
      destruct (method r), (path r); try discriminate; reflexivity. }
    rewrite handle_split, Hu, (below_limiter_other _ _ _ _ Hp), Hp.
    destruct (method r); try reflexivity; destruct (Express.getRoot r); reflexivity.
Qed.
End Routing.

(** *** What the sanitizers guarantee *)

Lemma firstChar_app s1 s2 :
  firstChar (s1 ++ s2) = match firstChar s1 with Some a => Some a | None => firstChar s2 end.
Proof. destruct s1; reflexivity. Qed.

Lemma lastChar_app s1 s2 :
  lastChar (s1 ++ s2) = match lastChar s2 with Some z => Some z | None => lastChar s1 end.
Proof.
  induction s1 as [|a s1 IH]; [rewrite app_nil; now destruct (lastChar s2)|].
  rewrite app_cons. simpl. rewrite IH.
  destruct (lastChar s2); [reflexivity|]. now destruct (lastChar s1).
Qed.

Lemma escapeChar_ends a :
  JS.isSpace a = false ->
  notSpace (firstChar (Validator.escapeChar a)) /\
  exists z, lastChar (Validator.escapeChar a) = Some z /\ JS.isSpace z = false.
Proof.
  destruct a as [[] [] [] [] [] [] [] []]; intros H;
    first [ vm_compute in H; discriminate H
          | split; [vm_compute; reflexivity
                   |eexists; split; [vm_compute; reflexivity|vm_compute; reflexivity]] ].
Qed.

Lemma escapeChar_nonempty a : exists z, lastChar (Validator.escapeChar a) = Some z.
Proof.
  destruct a as [[] [] [] [] [] [] [] []]; eexists; vm_compute; reflexivity.
Qed.

Lemma escape_first s :
  notSpace (firstChar s) -> notSpace (firstChar (Validator.escape s)).
Proof.
  destruct s as [|a s]; [intros _; exact I|]. cbn [firstChar notSpace]. intros Ha.
  rewrite escape_cons, firstChar_app.
  destruct (escapeChar_ends a Ha) as [Hf [z [Hz _]]].
  destruct (firstChar (Validator.escapeChar a)) eqn:E; [exact Hf|].
  destruct (Validator.escapeChar a); discriminate.
Qed.

Lemma escape_last s :
  notSpace (lastChar s) -> notSpace (lastChar (Validator.escape s)).
Proof.
  induction s as [|a s IH]; [intros _; exact I|].
  rewrite escape_cons, lastChar_app. cbn [lastChar].
  destruct (lastChar s) as [z|] eqn:E.
  - intros Hz. specialize (IH Hz).
    destruct (lastChar (Validator.escape s)) eqn:E'; [exact IH|].
    destruct s as [|b s]; [discriminate|].
    rewrite escape_cons, lastChar_app in E'.
    destruct (escapeChar_nonempty b) as [y Hy].
    destruct (lastChar (Validator.escape s)); [discriminate|]. rewrite Hy in E'. discriminate.
  - cbn [notSpace]. intros Ha.
    destruct s; [|simpl in E; destruct (lastChar s); discriminate].
    cbn. destruct (escapeChar_ends a Ha) as [_ [z [-> Hz]]]. exact Hz.
Qed.

Lemma trim_spaces s :
  forallChars JS.isSpace s = true -> Validator.trim s = EmptyString.
Proof. intros H. unfold Validator.trim. now rewrite (ltrim_spaces s H). Qed.

(** *** Arrays, element by element *)

Lemma sanitize_scalar g v : isArray v = false -> sanitize g v = g (toString v).
Proof. destruct v; try discriminate; reflexivity. Qed.

Lemma getField_normalized {P : Platform} f b :
  getField f (normalized b) = sanitized f (getField f b).
Proof. rewrite normalized_eq. destruct f; reflexivity. Qed.

(** An array prints as its elements with commas between them. *)
Lemma String_cons x rest :
  JS.String_ (VArray (x :: rest)) =
  match rest with
  | [] => toString x
  | _ => toString x ++ "," ++ JS.String_ (VArray rest)
  end.
Proof. destruct rest; reflexivity. Qed.

Lemma forallChars_join p l :
  p ","%char = true ->
  Forall (fun x => exists e, x = VString e /\ forallChars p e = true) l ->
  forallChars p (JS.String_ (VArray l)) = true.
Proof.
  intros Hc H. induction H as [|x l (e & -> & He) Hl IH]; [reflexivity|].
  rewrite String_cons. change (toString (VString e)) with e.
  destruct l as [|y l]; [exact He|].
  rewrite !forallChars_app, IH, He. cbn [forallChars]. now rewrite Hc.
Qed.

(** What holds of every sanitized string holds of every element a
    string sanitizer leaves. *)
Lemma Forall_sanitize (R : string -> Prop) (p : Value -> bool) g v :
  (forall x, p x = true -> R (g (toString x))) ->
  forallb p (elements v) = true ->
  Forall (fun x => exists e, x = VString e /\ R e)
         (elements (sanitize (fun s => VString (g s)) v)).
Proof.
  intros HR. rewrite elements_sanitize.
  induction (elements v) as [|x l IH]; cbn [forallb map]; intros H.
  - constructor.
  - apply andb_true_iff in H as [Hx Hl].
    constructor; [eexists; split; [reflexivity|now apply HR]|now apply IH].
Qed.

Lemma scalar_sanitize (R : string -> Prop) g v :
  isArray v = false ->
  Forall (fun x => exists e, x = VString e /\ R e)
         (elements (sanitize (fun s => VString (g s)) v)) ->
  exists e, sanitize (fun s => VString (g s)) v = VString e /\ R e.
Proof.
  intros Hv H. rewrite (sanitize_scalar _ _ Hv) in *. cbn [elements] in H.
  inversion H as [|? ? Hx]; subst. exact Hx.
Qed.

Lemma forallb_true {A} (l : list A) : forallb (fun _ => true) l = true.
Proof. induction l; [reflexivity|assumption]. Qed.

Lemma length_bounds lo hi v :
  forallb (fun x => Validator.isLength lo (Some hi) (Validator.trim (toString x)))
          (elements v) = true ->
  Forall (fun x => exists e, x = VString e /\ lo <= String.length e <= 6 * hi)
         (elements (sanitize (fun s => VString (Validator.escape (Validator.trim s))) v)).
Proof.
  apply (Forall_sanitize (fun e => lo <= String.length e <= 6 * hi)
           (fun x => Validator.isLength lo (Some hi) (Validator.trim (toString x)))
           (fun s => Validator.escape (Validator.trim s))).
  intros x H. unfold Validator.isLength in H.
  apply andb_true_iff in H as [H1 H2]. apply Nat.leb_le in H1, H2.
  pose proof (escape_length (Validator.trim (toString x))). lia.
Qed.

(** X1. Whatever the body, the name, subject and message the chains
    leave in [req.body] contain no angle bracket, double quote,
    apostrophe, slash, backslash or backquote: each is a string of that
    kind or, when the field came as an array, an array of such strings,
    and what the mail's template prints for it is of that kind too. *)
Theorem sanitized_fields_are_html_safe {P : Platform} (b : Body) (f : Field) :
  f <> FEmail ->
  Forall (fun x => exists e, x = VString e
                             /\ forallChars (fun c => negb (isHtmlSpecial c)) e = true)
         (elements (getField f (normalized b)))
  /\ forallChars (fun c => negb (isHtmlSpecial c))
                 (JS.String_ (getField f (normalized b))) = true
  /\ (isArray (getField f b) = false ->
      exists e, getField f (normalized b) = VString e
                /\ forallChars (fun c => negb (isHtmlSpecial c)) e = true).
Proof.
  intros Hf. rewrite getField_normalized.
  assert (sanitized f (getField f b) =
          sanitize (fun s => VString (Validator.escape (Validator.trim s)))
                   (getField f b)) as ->
    by (destruct f; [reflexivity|congruence|reflexivity|reflexivity]).
  assert (Forall (fun x => exists e, x = VString e
                   /\ forallChars (fun c => negb (isHtmlSpecial c)) e = true)
            (elements (sanitize (fun s => VString (Validator.escape (Validator.trim s)))
                                (getField f b)))) as F.
  { apply (Forall_sanitize
             (fun e => forallChars (fun c => negb (isHtmlSpecial c)) e = true)
             (fun _ => true) (fun s => Validator.escape (Validator.trim s)));
      [intros x _; apply escape_safe|apply forallb_true]. }
  split; [exact F|]. split.
  - destruct (isArray (getField f b)) eqn:Hv.
    + destruct (getField f b) as [| | | | | |l]; try discriminate Hv.
      apply forallChars_join; [reflexivity|exact F].
    + rewrite (sanitize_scalar _ _ Hv). apply escape_safe.
  - intros Hv. exact (scalar_sanitize _ _ _ Hv F).
Qed.

(** A name with markup in it, and a subject that is an array. *)
Lemma sanitized_fields_are_html_safe_witness :
  let b := {| b_name := VString "<b>Ann</b>"; b_email := VString "ann@example.org";
              b_subject := VArray [VString "a<b"; VString "c>d"];
              b_message := VString "Hello" |} in
  b_name (@normalized Example.platform b) = VString "&lt;b&gt;Ann&lt;&#x2F;b&gt;"
  /\ forallChars (fun c => negb (isHtmlSpecial c))
                 (JS.String_ (b_subject (@normalized Example.platform b))) = true.
Proof.
  intros b. split; [reflexivity|].
  exact (proj1 (proj2 (@sanitized_fields_are_html_safe Example.platform b FSubject
                         ltac:(discriminate)))).
Defined.

(** X2. A name that passes its rule is between 2 and 600 characters
    long once sanitized; a subject that passes is at most 1200 and a
    message at most 12000: six times the bound of the rule, the longest
    entity having six characters. Of a field that came as an array
    this holds of every element. *)
Theorem sanitized_length_bounds {P : Platform} (b : Body) :
  (passes FName b = true ->
     Forall (fun x => exists e, x = VString e /\ 2 <= String.length e <= 6 * 100)
            (elements (b_name (normalized b)))
     /\ (isArray (b_name b) = false ->
         exists e, b_name (normalized b) = VString e /\ 2 <= String.length e <= 6 * 100))
  /\ (passes FSubject b = true ->
        Forall (fun x => exists e, x = VString e /\ 0 <= String.length e <= 6 * 200)
               (elements (b_subject (normalized b)))
        /\ (isArray (b_subject b) = false ->
            exists e, b_subject (normalized b) = VString e /\ String.length e <= 6 * 200))
  /\ (passes FMessage b = true ->
        Forall (fun x => exists e, x = VString e /\ 0 <= String.length e <= 6 * 2000)
               (elements (b_message (normalized b)))
        /\ (isArray (b_message b) = false ->
            exists e, b_message (normalized b) = VString e /\ String.length e <= 6 * 2000)).
Proof.
  rewrite !passes_rule, normalized_eq. unfold rule, validated, sanitized.
  cbn [b_name b_subject b_message getField].
  split; [|split]; intros H; rewrite elements_sanitize, forallb_map in H;
    apply length_bounds in H; (split; [exact H|]); intros Hv;
    destruct (scalar_sanitize _ _ _ Hv H) as (e & -> & He);
    exists e; (split; [reflexivity|lia]).
Qed.

(** A name of 100 apostrophes: 600 characters once sanitized. *)
Lemma sanitized_length_bounds_witness :
  let b := Example.body (repeatChar "'" 100) "ann@example.org" "Hi" "Hello" in
  exists e, b_name (@normalized Example.platform b) = VString e
            /\ 2 <= String.length e <= 6 * 100.
Proof.
  intros b.
  exact (proj2 (proj1 (@sanitized_length_bounds Example.platform b) eq_refl) eq_refl).
Defined.

(** X3. The sanitized name, subject and message neither begin nor end
    with white space; of a field that came as an array this holds of
    every element. *)
Theorem sanitized_fields_have_no_outer_space {P : Platform} (b : Body) (f : Field) :
  f <> FEmail ->
  Forall (fun x => exists e, x = VString e
                             /\ notSpace (firstChar e) /\ notSpace (lastChar e))
         (elements (getField f (normalized b)))
  /\ (isArray (getField f b) = false ->
      exists e, getField f (normalized b) = VString e
                /\ notSpace (firstChar e) /\ notSpace (lastChar e)).
Proof.
  intros Hf. rewrite getField_normalized.
  assert (sanitized f (getField f b) =
          sanitize (fun s => VString (Validator.escape (Validator.trim s)))
                   (getField f b)) as ->
    by (destruct f; [reflexivity|congruence|reflexivity|reflexivity]).
  assert (Forall (fun x => exists e, x = VString e
                   /\ notSpace (firstChar e) /\ notSpace (lastChar e))
            (elements (sanitize (fun s => VString (Validator.escape (Validator.trim s)))
                                (getField f b)))) as F.
  { apply (Forall_sanitize
             (fun e => notSpace (firstChar e) /\ notSpace (lastChar e))
             (fun _ => true) (fun s => Validator.escape (Validator.trim s)));
      [|apply forallb_true].
    intros x _. split; [apply escape_first|apply escape_last]; apply trim_canonical. }
  split; [exact F|]. intros Hv. exact (scalar_sanitize _ _ _ Hv F).
Qed.

(** A message with white space around it. *)
Lemma sanitized_fields_have_no_outer_space_witness :
  let b := Example.body "Ann" "ann@example.org" "Hi" "  Hello you " in
  exists e, b_message (@normalized Example.platform b) = VString e
            /\ notSpace (firstChar e) /\ notSpace (lastChar e).
Proof.
  intros b.
  exact (proj2 (@sanitized_fields_have_no_outer_space Example.platform b FMessage
                  ltac:(discriminate)) eq_refl).
Defined.

(** X4. A name that is missing, empty or made of white space only is
    rejected; a subject or a message that is missing, empty or made of
    white space only passes and is the empty string in the mail. Of a
    field that came as an array: a name with one such element is
    rejected, a subject or a message of such elements passes and is
    left as an array of empty strings. *)
Theorem blank_fields {P : Platform} (b : Body) :
  let blank := fun x => forallChars JS.isSpace (toString x) = true in
  (isArray (b_name b) = false -> blank (b_name b) -> passes FName b = false)
  /\ (Exists blank (elements (b_name b)) -> passes FName b = false)
  /\ (isArray (b_subject b) = false -> blank (b_subject b) ->
        passes FSubject b = true /\ b_subject (normalized b) = VString EmptyString)
  /\ (Forall blank (elements (b_subject b)) ->
        passes FSubject b = true
        /\ Forall (fun x => x = VString EmptyString) (elements (b_subject (normalized b))))
  /\ (isArray (b_message b) = false -> blank (b_message b) ->
        passes FMessage b = true /\ b_message (normalized b) = VString EmptyString)
  /\ (Forall blank (elements (b_message b)) ->
        passes FMessage b = true
        /\ Forall (fun x => x = VString EmptyString) (elements (b_message (normalized b)))).
Proof.
  intros blank.
  assert (Hrej : forall v,
             Exists blank (elements v) ->
             forallb (fun x => Validator.isLength 2 (Some 100) (Validator.trim (toString x)))
                     (elements v) = false).
  { intros v H. induction H as [x l Hx|x l _ IH]; cbn [forallb].
    - unfold blank in Hx. now rewrite (trim_spaces _ Hx).
    - rewrite IH. apply andb_false_r. }
  assert (Hacc : forall hi v,
             Forall blank (elements v) ->
             forallb (fun x => Validator.isLength 0 (Some hi) (Validator.trim (toString x)))
                     (elements v) = true
             /\ Forall (fun x => x = VString EmptyString)
                  (map (fun x => VString (Validator.escape (Validator.trim (toString x))))
                       (elements v))).
  { intros hi v H.
    induction H as [|x l Hx _ [IH1 IH2]]; [split; [reflexivity|constructor]|].
    cbn [forallb map]. unfold blank in Hx. rewrite (trim_spaces _ Hx), IH1.
    split; [reflexivity|]. constructor; [reflexivity|exact IH2]. }
  assert (Hone : forall v, isArray v = false -> blank v -> Forall blank (elements v)).
  { intros v Hv Hb. destruct v; try discriminate Hv;
      (constructor; [exact Hb|constructor]). }
  assert (Hacc1 : forall hi v,
             isArray v = false -> blank v ->
             forallb (fun x => Validator.isLength 0 (Some hi) (Validator.trim (toString x)))
                     (elements v) = true
             /\ sanitize (fun s => VString (Validator.escape (Validator.trim s))) v
                = VString EmptyString).
  { intros hi v Hv Hb. destruct (Hacc hi v (Hone v Hv Hb)) as [H1 H2].
    split; [exact H1|]. rewrite (sanitize_scalar _ _ Hv).
    destruct v; try discriminate Hv; cbn [elements map] in H2; now inversion H2. }
  rewrite !passes_rule, normalized_eq. unfold rule, validated, sanitized.
  cbn [b_name b_subject b_message getField].
  rewrite !elements_sanitize, !forallb_map.
  cbn [ruleOn toString JS.String_].
  split; [|split; [|split; [|split; [|split]]]].
  - intros Hv Hb. apply Hrej. destruct (b_name b); try discriminate Hv;
      constructor; exact Hb.
  - apply Hrej.
  - exact (Hacc1 200 _).
  - exact (Hacc 200 _).
  - exact (Hacc1 2000 _).
  - exact (Hacc 2000 _).
Qed.

(** A blank name, a missing subject and a message of white space. *)
Lemma blank_fields_witness :
  let b := {| b_name := VString "   "; b_email := VString "ann@example.org";
              b_subject := VUndef; b_message := VString (String JS.nl " ") |} in
  @passes Example.platform FName b = false
  /\ @passes Example.platform FSubject b = true
  /\ b_message (@normalized Example.platform b) = VString EmptyString.
Proof.
  intros b.
  destruct (@blank_fields Example.platform b) as (Hn & _ & Hs & _ & Hm & _).
  split; [apply Hn; reflexivity|].
  split; [apply Hs; reflexivity|apply Hm; reflexivity].
Defined.

(** X5. In the mail a valid submission sends, the message part of the
    HTML is the sanitized message with every line feed replaced by
    <br>: no line feed is left in it and it is three characters longer
    per line feed. *)
Theorem message_line_breaks {P : Platform} env s r b :
  method r = POST -> path r = PContact ->
  underLimit env s r = true -> reqBody r = Some b ->
  allPass b = true -> isArray (b_message b) = false ->
  let msg := Validator.escape (Validator.trim (toString (b_message b))) in
  exists m,
    outbox (snd (fst (handle env s r))) = m :: outbox s
    /\ m_html m =
         mailHtml
           (sanitize (fun x => VString (Validator.escape (Validator.trim x))) (b_name b))
           (sanitize normalizeEmail (b_email b))
           (sanitize (fun x => VString (Validator.escape (Validator.trim x))) (b_subject b))
           (JS.replaceAll JS.nl "<br>" msg) (now env)
    /\ countChar JS.nl (JS.replaceAll JS.nl "<br>" msg) = 0
    /\ String.length (JS.replaceAll JS.nl "<br>" msg)
       = String.length msg + 3 * countChar JS.nl msg.
Proof.
  intros Hm Hp Ha Hb Hv Harr msg. exists (mailFor b (now env)).
  split; [|split; [|split]].
  - pose proof (contactHandler_valid env s r b Hv Harr) as Hc.
    destruct (smtp env (mailFor b (now env)));
      now rewrite (handle_contact env s r b _ _ _ Hm Hp Ha Hb Hc).
  - unfold mailFor. rewrite normalized_eq.
    cbn [mailOptions m_html b_name b_email b_subject b_message sanitized].
    rewrite (sanitize_scalar _ _ Harr). reflexivity.
  - clearbody msg. induction msg as [|a m IH]; [reflexivity|].
    simpl. destruct (Ascii.eqb a JS.nl) eqn:E.
    + exact IH.
    + simpl. now rewrite E, IH.
  - pose proof (replaceAll_length JS.nl "<br>" msg) as H.
    simpl String.length in H. lia.
Qed.

(** A message of two lines: one <br> in the mail. *)
Lemma message_line_breaks_witness :
  let b := Example.body "Ann" "ann@example.org" "Hi" (String "a" (String JS.nl "b")) in
  let env := {| now := 0; smtp := Example.up |} in
  exists m,
    outbox (snd (fst (@handle Example.platform env initialState (Example.post b)))) = [m]
    /\ m_html m =
         @mailHtml Example.platform (VString "Ann") (VString "ann@example.org")
                   (VString "Hi") "a<br>b" 0.
Proof.
  intros b env.
  destruct (@message_line_breaks Example.platform env initialState (Example.post b) b
              eq_refl eq_refl eq_refl eq_refl eq_refl eq_refl)
    as (m & Ho & Hh & _).
  exists m. split; [exact Ho|exact Hh].
Defined.

(** *** Outcomes of a request *)

(** Every row of the decision table. *)
Ltac table_cases :=
  repeat match goal with
    | |- context [if ?x then _ else _] => destruct x
    | |- context [match smtp ?e ?m with _ => _ end] => destruct (smtp e m)
    | |- context [match reqBody ?r with _ => _ end] => destruct (reqBody r)
    | |- context [match method ?r with _ => _ end] => destruct (method r)
    end.

(** X7. A POST to /contact that reaches the handler has exactly four
    outcomes: 400 when a rule is violated; when all pass, 500 with
    nothing sent if the message is an array (the handler's TypeError),
    200 if the transport accepts the mail, 500 if it rejects it. Only
    the two 500s write to the console: the error of the handler, or
    that of the transport. *)
Theorem contact_outcomes {P : Platform} env s r b :
  method r = POST -> path r = PContact ->
  underLimit env s r = true -> reqBody r = Some b ->
  let out := handle env s r in
  (r_status (fst (fst out)) = 400 /\ allPass b = false
   /\ outbox (snd (fst out)) = outbox s
   /\ console (snd (fst out)) = console s)
  \/ (r_status (fst (fst out)) = 500 /\ allPass b = true
      /\ isArray (b_message b) = true
      /\ r_body (fst (fst out)) =
           BFailure false "Message failed to send. Please try again later."
      /\ outbox (snd (fst out)) = outbox s
      /\ console (snd (fst out)) = EmailSendError TypeError :: console s)
  \/ (r_status (fst (fst out)) = 200 /\ allPass b = true
      /\ isArray (b_message b) = false
      /\ smtp env (mailFor b (now env)) = Accepted
      /\ outbox (snd (fst out)) = mailFor b (now env) :: outbox s
      /\ console (snd (fst out)) = console s)
  \/ (r_status (fst (fst out)) = 500 /\ allPass b = true
      /\ isArray (b_message b) = false
      /\ outbox (snd (fst out)) = mailFor b (now env) :: outbox s
      /\ exists cause, smtp env (mailFor b (now env)) = Rejected cause
           /\ console (snd (fst out)) = EmailSendError (TransportError cause) :: console s).
Proof.
  intros Hm Hp Ha Hb out. unfold out.
  rewrite (contactOutcome_handle env s r b Hm Hp Ha Hb). unfold contactOutcome.
  destruct (allPass b);
    [destruct (isArray (b_message b));
     [|destruct (smtp env (mailFor b (now env))) as [|cause]]|].
  - right. left. repeat split.
  - right. right. left. repeat split.
  - right. right. right. repeat split. exists cause. repeat split.
  - left. repeat split.
Qed.

(** A valid submission with the transport down: the fourth outcome.
    The same with its message as an array: the second. *)
Lemma contact_outcomes_witness :
  let b := Example.body "Ann" "ann@example.org" "Hi" "Hello" in
  let b' := {| b_name := VString "Ann"; b_email := VString "ann@example.org";
               b_subject := VString "Hi";
               b_message := VArray [VString "Hello"; VString "you"] |} in
  let out := @handle Example.platform {| now := 0; smtp := Example.down |}
                     initialState (Example.post b) in
  let out' := @handle Example.platform {| now := 0; smtp := Example.up |}
                      initialState (Example.post b') in
  (r_status (fst (fst out)) = 500
   /\ console (snd (fst out)) = [EmailSendError (TransportError "Invalid login: 535-5.7.8")])
  /\ (r_status (fst (fst out')) = 500
      /\ outbox (snd (fst out')) = []
      /\ console (snd (fst out')) = [EmailSendError TypeError]).
Proof.
  intros b b' out out'. split.
  - destruct (@contact_outcomes Example.platform {| now := 0; smtp := Example.down |}
                initialState (Example.post b) b eq_refl eq_refl eq_refl eq_refl)
      as [(_ & H & _)|[(_ & _ & H & _)|[(_ & _ & _ & H & _)|(Hs & _ & _ & _ & cause & Hc & Hl)]]];
      [discriminate H|discriminate H|discriminate H|].
    split; [exact Hs|]. injection Hc as <-. exact Hl.
  - destruct (@contact_outcomes Example.platform {| now := 0; smtp := Example.up |}
                initialState (Example.post b') b' eq_refl eq_refl eq_refl eq_refl)
      as [(_ & H & _)|[(Hs & _ & _ & _ & Ho & Hl)|[(_ & _ & H & _)|(_ & _ & H & _)]]];
      [discriminate H| |discriminate H|discriminate H].
    split; [exact Hs|]. split; [exact Ho|exact Hl].
Defined.

(** X8. The 413 and the 400 that express.json raises never reach the
    client as such: no response has status 413, a 400 is always the
    handler's list of field errors, and a body that express.json
    refuses is answered 500 with
    {success: false, error: 'Internal Server Error'}, the error being
    logged. *)
Theorem status_codes {P : Platform} env s r :
  let out := handle env s r in
  r_status (fst (fst out)) <> 413
  /\ (r_status (fst (fst out)) = 400 ->
      exists b, Express.postContact r = true /\ reqBody r = Some b
                /\ allPass b = false
                /\ r_body (fst (fst out)) = BErrors (validationErrors b))
  /\ (Express.postContact r = true -> underLimit env s r = true ->
      reqBody r = None ->
      r_status (fst (fst out)) = 500
      /\ r_body (fst (fst out)) = BFailure false "Internal Server Error"
      /\ exists e, console (snd (fst out)) = ErrStack e :: console s
                   /\ (statusOf e = 413 \/ statusOf e = 400)).
Proof.
  cbv zeta. rewrite handle_route. split; [|split].
  - unfold route, contactOutcome. table_cases; cbn; lia.
  - unfold route, contactOutcome.
    destruct (Express.useContact r && negb (underLimit env s r));
      [intros H; discriminate H|].
    destruct (Express.postContact r) eqn:Hp.
    + assert (method r = POST) as ->
        by (unfold Express.postContact in Hp;
            destruct (method r), (path r); try discriminate; reflexivity).
      destruct (reqBody r) as [b|]; [|intros H; discriminate H].
      destruct (allPass b) eqn:Hv.
      * destruct (isArray (b_message b)); [intros H; discriminate H|].
        destruct (smtp env _); intros H; discriminate H.
      * intros _. exists b. repeat split. exact Hv.
    + destruct (method r); try (intros H; discriminate H);
        destruct (Express.getRoot r); intros H; discriminate H.
  - intros Hp Ha Hb. unfold route. rewrite Ha, andb_false_r, Hp, Hb.
    assert (method r = POST) as ->
      by (unfold Express.postContact in Hp;
          destruct (method r), (path r); try discriminate; reflexivity).
    cbn [fst snd r_status r_body console logged].
    split; [reflexivity|]. split; [reflexivity|].
    eexists. split; [reflexivity|].
    destruct (jsonLimit <? bodyBytes r)%N; [left|right]; reflexivity.
Qed.

(** A body of 20000 bytes: answered 500, not 413. *)
Lemma status_codes_witness :
  let r := {| method := POST; path := PContact; ip := "203.0.113.7";
              origin := None; jsonType := true; bodyBytes := 20000;
              payload := None |} in
  let out := @handle Example.platform {| now := 0; smtp := Example.up |} initialState r in
  r_status (fst (fst out)) = 500
  /\ r_body (fst (fst out)) = BFailure false "Internal Server Error".
Proof.
  intros r out.
  destruct (@status_codes Example.platform {| now := 0; smtp := Example.up |}
              initialState r) as (_ & _ & H).
  destruct (H eq_refl eq_refl eq_refl) as (Hs & Hb & _).
  split; [exact Hs|exact Hb].
Defined.

(** X9. A POST to /contact whose declared JSON body is within the limit
    but does not parse is answered by the final error handler: 500 with
    {success: false, error: 'Internal Server Error'}; the error is
    logged, no chain runs and nothing is sent. *)
Theorem malformed_json_is_internal_error {P : Platform} env s r :
  method r = POST -> path r = PContact -> underLimit env s r = true ->
  jsonType r = true -> (0 < bodyBytes r <= jsonLimit)%N -> payload r = None ->
  handle env s r =
    ({| r_status := 500; r_headers := Cors.configureOrigin corsOptions r;
        r_body := BFailure false "Internal Server Error" |},
     logged (ErrStack MalformedJson) (counted env s r),
     [Helmet; Limiter; Cors; Json; ErrorHandler])
  /\ outbox (snd (fst (handle env s r))) = outbox s
  /\ console (snd (fst (handle env s r))) = ErrStack MalformedJson :: console s.
Proof.
  intros Hm Hp Ha Hj Hb Hpl.
  rewrite (handle_malformed env s r Hm Hp Ha Hj Hb Hpl). repeat split.
Qed.

(** Seven bytes that are not JSON. *)
Lemma malformed_json_is_internal_error_witness :
  let r := {| method := POST; path := PContact; ip := "203.0.113.7";
              origin := None; jsonType := true; bodyBytes := 7; payload := None |} in
  let out := @handle Example.platform {| now := 0; smtp := Example.up |} initialState r in
  r_status (fst (fst out)) = 500
  /\ r_body (fst (fst out)) = BFailure false "Internal Server Error"
  /\ console (snd (fst out)) = [ErrStack MalformedJson].
Proof.
  intros r out.
  destruct (@malformed_json_is_internal_error Example.platform
              {| now := 0; smtp := Example.up |} initialState r)
    as (E & _ & Hc); try reflexivity; [vm_compute; split; [reflexivity|discriminate]|].
  unfold out. rewrite E. split; [reflexivity|]. split; [reflexivity|].
  rewrite E in Hc. exact Hc.
Defined.

(** X10. An OPTIONS request that the limiter lets through is answered
    by cors itself: 204, no body, the allowed method POST and the
    allowed header Content-Type; no chain, no handler and no health
    route runs, nothing is sent or logged. *)
Theorem preflight_is_answered_by_cors {P : Platform} env s r :
  method r = OPTIONS ->
  Express.useContact r && negb (underLimit env s r) = false ->
  let out := handle env s r in
  r_status (fst (fst out)) = 204
  /\ r_body (fst (fst out)) = BNone
  /\ r_headers (fst (fst out)) =
       (Cors.configureOrigin corsOptions r ++
        [("Access-Control-Allow-Methods", "POST");
         ("Access-Control-Allow-Headers", "Content-Type");
         ("Content-Length", "0")])%list
  /\ outbox (snd (fst out)) = outbox s
  /\ console (snd (fst out)) = console s
  /\ (forall f, ~ In (Validate f) (snd out))
  /\ ~ In ContactHandler (snd out) /\ ~ In Health (snd out).
Proof.
  intros Hm Hl out. unfold out. rewrite handle_route. unfold route.
  rewrite Hl, Hm. cbn [fst snd r_status r_body r_headers].
  do 3 (split; [reflexivity|]).
  destruct (Express.useContact r); cbn [outbox console counted List.app];
    do 2 (split; [reflexivity|]);
    (split; [intros f H|split; intros H]); simpl in H; intuition discriminate.
Qed.

(** A preflight for /contact. *)
Lemma preflight_is_answered_by_cors_witness :
  let r := {| method := OPTIONS; path := PContact; ip := "203.0.113.7";
              origin := Some "https://gussy.example"; jsonType := false;
              bodyBytes := 0; payload := None |} in
  let out := @handle Example.platform {| now := 0; smtp := Example.up |} initialState r in
  r_status (fst (fst out)) = 204 /\ snd out = [Helmet; Limiter; Cors].
Proof.
  intros r out.
  destruct (@preflight_is_answered_by_cors Example.platform
              {| now := 0; smtp := Example.up |} initialState r eq_refl eq_refl)
    as (Hs & _).
  split; [exact Hs|reflexivity].
Defined.

(** What one request adds to the outbox. *)
Lemma handle_outbox {P : Platform} env s r :
  let out := handle env s r in
  outbox (snd (fst out)) = outbox s
  \/ (method r = POST /\ path r = PContact /\ underLimit env s r = true
      /\ exists b, reqBody r = Some b /\ allPass b = true
                   /\ isArray (b_message b) = false
                   /\ outbox (snd (fst out)) = mailFor b (now env) :: outbox s).
Proof.
  cbv zeta. rewrite handle_route. unfold route, contactOutcome.
  destruct (Express.useContact r) eqn:Hu; cbn [andb].
  2: { destruct (method r); try (left; reflexivity);
       (destruct (Express.postContact r) eqn:Hp;
        [unfold Express.postContact, Express.useContact in *;
         destruct (method r), (path r); discriminate|]);
       destruct (Express.getRoot r); left; reflexivity. }
  destruct (underLimit env s r) eqn:Ha; cbn [negb]; [|left; reflexivity].
  destruct (Express.postContact r) eqn:Hp.
  - assert (method r = POST /\ path r = PContact) as [Hm Hpa].
    { unfold Express.postContact in Hp.
      destruct (method r), (path r); try discriminate; auto. }
    rewrite Hm. destruct (reqBody r) as [b|]; [|left; reflexivity].
    destruct (allPass b) eqn:Hv; [|left; reflexivity].
    destruct (isArray (b_message b)) eqn:Harr; [left; reflexivity|].
    right. repeat split; try assumption. exists b.
    destruct (smtp env _); repeat split; assumption.
  - destruct (method r); try (left; reflexivity);
      destruct (Express.getRoot r) eqn:Hg; try (left; reflexivity);
      unfold Express.getRoot, Express.useContact in *;
      destruct (method r), (path r); discriminate.
Qed.

(** X12. One request sends at most one mail, and sends one only when it
    is a POST to /contact under the limit whose body passes all four
    rules and whose message is not an array. *)
Theorem at_most_one_mail {P : Platform} env s r :
  let out := handle env s r in
  outbox (snd (fst out)) = outbox s
  \/ (method r = POST /\ path r = PContact /\ underLimit env s r = true
      /\ exists b, reqBody r = Some b /\ allPass b = true
                   /\ isArray (b_message b) = false
                   /\ outbox (snd (fst out)) = mailFor b (now env) :: outbox s).
Proof. exact (handle_outbox env s r). Qed.

Lemma serve_nil {P : Platform} s : serve s [] = ([], s).
Proof. reflexivity. Qed.

(** X13. Over any run, the mails the server sends all go to
    saadnadeem962@gmail.com, and there are at most as many as there are
    POST requests to /contact. *)
Theorem mails_of_a_run {P : Platform} s rs :
  exists new,
    outbox (snd (serve s rs)) = (new ++ outbox s)%list
    /\ Forall (fun m => m_to m = "saadnadeem962@gmail.com") new
    /\ List.length new <= List.length (List.filter (fun er => Express.postContact (snd er)) rs).
Proof.
  revert s. induction rs as [|[env r] rest IH]; intros s.
  - exists []. repeat split; [constructor|simpl; lia].
  - rewrite serve_cons. cbn [snd].
    destruct (IH (snd (fst (handle env s r)))) as (new & Ho & Hto & Hlen).
    destruct (handle_outbox env s r) as [E|(Hm & Hp & _ & b & _ & _ & _ & E)].
    + exists new. rewrite Ho, E. split; [reflexivity|]. split; [exact Hto|].
      cbn [List.filter snd]. destruct (Express.postContact r); simpl; lia.
    + exists (new ++ [mailFor b (now env)])%list. rewrite Ho, E.
      split; [now rewrite <- List.app_assoc|]. split.
      * apply Forall_app. split; [exact Hto|]. repeat constructor.
      * cbn [List.filter snd]. unfold Express.postContact at 1. rewrite Hm, Hp.
        rewrite List.length_app. simpl. lia.
Qed.

(** X14. A request adds an entry to the console exactly when it is
    answered 500; every other request leaves the console as it was. *)
Theorem console_iff_500 {P : Platform} env s r :
  let out := handle env s r in
  (r_status (fst (fst out)) = 500 /\ exists e, console (snd (fst out)) = e :: console s)
  \/ (r_status (fst (fst out)) <> 500 /\ console (snd (fst out)) = console s).
Proof.
  cbv zeta. rewrite handle_route. unfold route, contactOutcome.
  table_cases; cbn [fst snd r_status console logged sent counted sendFailed tooManyRequests];
    first [ left; split; [reflexivity|eexists; reflexivity]
          | right; split; [discriminate|reflexivity] ].
Qed.

(** X11. A request that the limiter does not refuse and that is no
    preflight, no POST to /contact and no GET or HEAD of / is answered
    404 with nothing sent or logged; at /contact and below it still
    counts against the client's rate limit. *)
Theorem unrouted_is_404 {P : Platform} env s r :
  method r <> OPTIONS ->
  Express.postContact r = false -> Express.getRoot r = false ->
  Express.useContact r && negb (underLimit env s r) = false ->
  let out := handle env s r in
  r_status (fst (fst out)) = 404
  /\ r_body (fst (fst out)) = BNone
  /\ outbox (snd (fst out)) = outbox s
  /\ console (snd (fst out)) = console s
  /\ hits (snd (fst out)) = if Express.useContact r then hits (counted env s r) else hits s.
Proof.
  intros Hm Hp Hg Hl out. unfold out. rewrite handle_route. unfold route.
  rewrite Hl, Hp, Hg.
  destruct (method r); try congruence; destruct (Express.useContact r); repeat split.
Qed.

(** GET /contact: 404, and one hit counted. *)
Lemma unrouted_is_404_witness :
  let r := {| method := GET; path := PContact; ip := "203.0.113.7";
              origin := None; jsonType := false; bodyBytes := 0; payload := None |} in
  let out := @handle Example.platform {| now := 5; smtp := Example.up |} initialState r in
  r_status (fst (fst out)) = 404
  /\ hits (snd (fst out)) !! "203.0.113.7" = Some (1, 900005%N).
Proof.
  intros r out.
  destruct (@unrouted_is_404 Example.platform {| now := 5; smtp := Example.up |}
              initialState r) as (Hs & _ & _ & _ & Hh);
    [discriminate|reflexivity|reflexivity|reflexivity|].
  split; [exact Hs|]. unfold out. rewrite Hh. vm_compute. reflexivity.
Defined.

(** X20. The stack of middleware computes, for every request, the
    response, state and trace of the decision table [route]: refused by
    the limiter, else preflight, else the contact route (body refused,
    rejected, failed on a message that is an array, sent, or failed to
    send), else health for GET and HEAD of /, else 404. Requests
    carry no conditional headers. *)
Theorem app_is_a_decision_table {P : Platform} env s r :
  handle env s r = route env s r.
Proof. apply handle_route. Qed.

(** *** The limiter's store, and the validation errors *)

Lemma increment_lookup o key t (store : gmap string (nat * N)) :
  snd (RateLimit.increment o key t store) !! key =
  Some (fst (RateLimit.increment o key t store),
        match store !! key with
        | Some (_, reset) => if (reset <=? t)%N then (t + RateLimit.windowMs o)%N else reset
        | None => (t + RateLimit.windowMs o)%N
        end).
Proof.
  unfold RateLimit.increment.
  destruct (store !! key) as [[h reset]|]; [destruct (reset <=? t)%N|];
    cbn [fst snd]; now rewrite lookup_insert_eq.
Qed.

Lemma increment_count o key t (store : gmap string (nat * N)) :
  fst (RateLimit.increment o key t store) =
  match store !! key with
  | Some (h, reset) => if (reset <=? t)%N then 1 else S h
  | None => 1
  end.
Proof.
  unfold RateLimit.increment.
  destruct (store !! key) as [[h reset]|]; [destruct (reset <=? t)%N|]; reflexivity.
Qed.

(** X16. A request changes the limiter's store only when its path is
    /contact or below, and then only the entry of its own client, which
    it counts whatever its method and whatever becomes of it; the
    verdict on any other client is unchanged. *)
Theorem limiter_store_is_per_client {P : Platform} env s r :
  let s' := snd (fst (handle env s r)) in
  (Express.useContact r = false -> hits s' = hits s)
  /\ (forall key, key <> ip r -> hits s' !! key = hits s !! key)
  /\ (forall key env' r', key <> ip r -> ip r' = key ->
        underLimit env' s' r' = underLimit env' s r')
  /\ (Express.useContact r = true ->
        exists n reset, hits s' !! ip r = Some (S n, reset)).
Proof.
  cbv zeta. pose proof (handle_hits env s r) as Hh.
  assert (forall key, key <> ip r ->
            hits (snd (fst (handle env s r))) !! key = hits s !! key) as Ho.
  { intros key Hk. rewrite Hh. destruct (Express.useContact r); [|reflexivity].
    unfold counted. cbn [hits]. apply increment_other. congruence. }
  split; [|split; [exact Ho|split]].
  - intros Hu. now rewrite Hh, Hu.
  - intros key env' r' Hk Hr. unfold underLimit.
    rewrite !increment_count, Hr, (Ho key Hk). reflexivity.
  - intros Hu. rewrite Hh, Hu. unfold counted. cbn [hits].
    rewrite increment_lookup, increment_count.
    destruct (hits s !! ip r) as [[h reset]|]; [destruct (reset <=? now env)%N|];
      eauto.
Qed.

(** One submission: its client is counted, another client is not. *)
Lemma limiter_store_is_per_client_witness :
  let b := Example.body "Ann" "ann@example.org" "Hi" "Hello" in
  let s' := snd (fst (@handle Example.platform {| now := 0; smtp := Example.up |}
                        initialState (Example.post b))) in
  hits s' !! "198.51.100.9" = None
  /\ exists n reset, hits s' !! "203.0.113.7" = Some (S n, reset).
Proof.
  intros b s'.
  destruct (@limiter_store_is_per_client Example.platform
              {| now := 0; smtp := Example.up |} initialState (Example.post b))
    as (_ & Ho & _ & Hc).
  split; [apply (Ho "198.51.100.9"); discriminate|apply Hc; reflexivity].
Defined.

(** X17. Once the reset time of a client's window is reached, its next
    request to /contact is let through, however many were counted
    before, and opens a new window of 15 minutes with count 1. *)
Theorem window_expiry_resets_the_count {P : Platform} env s r h reset :
  Express.useContact r = true ->
  hits s !! ip r = Some (h, reset) ->
  (reset <= now env)%N ->
  underLimit env s r = true
  /\ hits (snd (fst (handle env s r))) !! ip r
     = Some (1, (now env + 15 * 60 * 1000)%N).
Proof.
  intros Hu Hs Ht. apply N.leb_le in Ht. split.
  - unfold underLimit. now rewrite increment_count, Hs, Ht.
  - rewrite handle_hits, Hu. unfold counted. cbn [hits].
    now rewrite increment_lookup, increment_count, Hs, Ht.
Qed.

(** X18. Before the reset time of a client's window, a request to
    /contact is counted and leaves the reset time as it is (refused
    requests too: the window is fixed, not sliding); it is let through
    exactly when fewer than 100 were counted before it. *)
Theorem window_is_fixed {P : Platform} env s r h reset :
  Express.useContact r = true ->
  hits s !! ip r = Some (h, reset) ->
  (now env < reset)%N ->
  underLimit env s r = (h <? 100)%nat
  /\ hits (snd (fst (handle env s r))) !! ip r = Some (S h, reset).
Proof.
  intros Hu Hs Ht. apply N.leb_gt in Ht. split.
  - unfold underLimit. rewrite increment_count, Hs, Ht.
    change (RateLimit.max limiter) with 100.
    destruct (Nat.ltb_spec 100 (S h)), (Nat.ltb_spec h 100); simpl; try reflexivity; lia.
  - rewrite handle_hits, Hu. unfold counted. cbn [hits].
    now rewrite increment_lookup, increment_count, Hs, Ht.
Qed.

(** A client with 250 hits, at the reset time of its window. *)
Lemma window_expiry_resets_the_count_witness :
  let r := Example.post (Example.body "Ann" "ann@example.org" "Hi" "Hello") in
  let env := {| now := 900000; smtp := Example.up |} in
  @underLimit env Example.overLimit r = true
  /\ hits (snd (fst (@handle Example.platform env Example.overLimit r))) !! "203.0.113.7"
     = Some (1, 1800000%N).
Proof.
  intros r env.
  apply (@window_expiry_resets_the_count Example.platform env Example.overLimit r 250 900000%N);
    [reflexivity|reflexivity|vm_compute; discriminate].
Defined.

(** The same client one millisecond earlier. *)
Lemma window_is_fixed_witness :
  let r := Example.post (Example.body "Ann" "ann@example.org" "Hi" "Hello") in
  let env := {| now := 899999; smtp := Example.up |} in
  @underLimit env Example.overLimit r = false
  /\ hits (snd (fst (@handle Example.platform env Example.overLimit r))) !! "203.0.113.7"
     = Some (251, 900000%N).
Proof.
  intros r env.
  apply (@window_is_fixed Example.platform env Example.overLimit r 250 900000%N);
    [reflexivity|reflexivity|vm_compute; reflexivity].
Defined.

(** X15. Nothing is deduplicated: the same valid submission (its
    message not an array) handled twice under the limit sends two
    mails. *)
Theorem no_deduplication {P : Platform} env1 env2 s r b :
  method r = POST -> path r = PContact -> reqBody r = Some b ->
  allPass b = true -> isArray (b_message b) = false ->
  underLimit env1 s r = true ->
  underLimit env2 (snd (fst (handle env1 s r))) r = true ->
  outbox (snd (serve s [(env1, r); (env2, r)]))
  = ([mailFor b (now env2); mailFor b (now env1)] ++ outbox s)%list.
Proof.
  intros Hm Hp Hb Hv Harr H1 H2.
  rewrite !serve_cons. cbn [snd serve].
  rewrite (contactOutcome_handle env2 _ r b Hm Hp H2 Hb).
  rewrite (contactOutcome_handle env1 s r b Hm Hp H1 Hb).
  unfold contactOutcome. rewrite Hv, Harr.
  destruct (smtp env1 _), (smtp env2 _); reflexivity.
Qed.

(** The same submission twice. *)
Lemma no_deduplication_witness :
  let b := Example.body "Ann" "ann@example.org" "Hi" "Hello" in
  let env := {| now := 0; smtp := Example.up |} in
  List.length (outbox (snd (@serve Example.platform initialState
                              [(env, Example.post b); (env, Example.post b)]))) = 2.
Proof.
  intros b env.
  rewrite (@no_deduplication Example.platform env env initialState (Example.post b) b);
    reflexivity.
Defined.

Lemma filter_length_le {A} (p : A -> bool) l :
  List.length (List.filter p l) <= List.length l.
Proof.
  induction l as [|x l IH]; [reflexivity|].
  cbn [List.filter]. destruct (p x); cbn [List.length]; lia.
Qed.

(** X6. The errors of a request come field by field in the order name,
    email, subject, message: for each field one entry for every value
    its validator refuses (each element of an array, in their order;
    the value itself otherwise), with the value the validator saw
    (trimmed but not escaped for name, subject and message, as
    submitted for email). A field has at most as many entries as it has
    elements; when no field is an array there is one entry per violated
    rule, at most four, and no field twice. *)
Theorem errors_in_chain_order {P : Platform} b :
  validationErrors b =
    concat (map (fun f => map (invalid f)
                              (List.filter (fun x => negb (ruleOn f x))
                                           (elements (validated f b))))
                fields)
  /\ (forall f, List.length (fieldErrors f b)
                <= List.length (elements (getField f b)))
  /\ ((forall f, isArray (getField f b) = false) ->
      validationErrors b =
        map (fun f => invalid f (validated f b))
            (List.filter (fun f => negb (passes f b)) fields)
      /\ List.length (validationErrors b) <= 4
      /\ List.NoDup (map e_param (validationErrors b))).
Proof.
  split; [|split].
  - rewrite validationErrors_eq. unfold fields. cbn [map concat].
    now rewrite !fieldErrors_rule.
  - intros f. rewrite fieldErrors_rule, List.length_map.
    etransitivity; [apply filter_length_le|].
    destruct f; cbn [validated getField];
      rewrite ?elements_sanitize, ?List.length_map; reflexivity.
  - intros Hs.
    assert (validationErrors b =
      map (fun f => invalid f (validated f b))
          (List.filter (fun f => negb (passes f b)) fields)) as E.
    { rewrite validationErrors_eq. unfold fields. cbn [map concat List.filter].
      rewrite !fieldErrors_scalar by apply Hs.
      destruct (passes FName b), (passes FEmail b), (passes FSubject b),
               (passes FMessage b); reflexivity. }
    split; [exact E|]. rewrite E. unfold fields. cbn [List.filter].
    destruct (passes FName b), (passes FEmail b), (passes FSubject b), (passes FMessage b);
      cbn; (split; [lia|]);
      repeat (apply List.NoDup_cons; [cbn; intuition discriminate|]); apply List.NoDup_nil.
Qed.

(** A name of two elements that are too short: two entries for the one
    field. A short name that is no array: one. *)
Lemma errors_in_chain_order_witness :
  let b := {| b_name := VArray [VString "a"; VString " b "];
              b_email := VString "ann@example.org";
              b_subject := VString "Hi"; b_message := VString "Hello" |} in
  let b' := Example.body "a" "nobody" "Hi" "Hello" in
  @validationErrors Example.platform b =
    [invalid FName (VString "a"); invalid FName (VString "b")]
  /\ @validationErrors Example.platform b' =
       [invalid FName (VString "a"); invalid FEmail (VString "nobody")].
Proof.
  intros b b'. split; [reflexivity|].
  destruct (@errors_in_chain_order Example.platform b') as (_ & _ & H).
  destruct H as (E & _); [intros f; destruct f; reflexivity|].
  rewrite E. reflexivity.
Defined.

(** *** Cors headers *)

Lemma configureOrigin_eq r :
  Cors.configureOrigin corsOptions r =
  match origin r with
  | Some o => if String.eqb o "*"
              then [("Access-Control-Allow-Origin", o); ("Vary", "Origin")]
              else [("Vary", "Origin")]
  | None => [("Vary", "Origin")]
  end.
Proof.
  unfold Cors.configureOrigin, corsOptions, allowedOrigins, Cors.isOriginAllowed.
  cbn [Cors.o_origin existsb]. destruct (origin r) as [o|]; [|reflexivity].
  now rewrite orb_false_r.
Qed.

(** X19. A response refused by the limiter carries no cors header.
    Every other response carries Vary: Origin, and carries
    Access-Control-Allow-Origin exactly when the request's Origin header
    is the literal string '*'. *)
Theorem cors_headers_of_every_response {P : Platform} env s r :
  let hs := r_headers (fst (fst (handle env s r))) in
  if Express.useContact r && negb (underLimit env s r) then hs = []
  else In ("Vary", "Origin") hs
       /\ (In "Access-Control-Allow-Origin" (map fst hs) <-> origin r = Some "*").
Proof.
  cbv zeta. rewrite handle_route. unfold route, contactOutcome, preflightHeaders, sendFailed.
  destruct (Express.useContact r && negb (underLimit env s r)); [reflexivity|].
  assert (In ("Vary", "Origin") (Cors.configureOrigin corsOptions r)
          /\ (In "Access-Control-Allow-Origin"
                 (map fst (Cors.configureOrigin corsOptions r)) <-> origin r = Some "*")) as [Hv Ha].
  { rewrite configureOrigin_eq. destruct (origin r) as [o|].
    - destruct (String.eqb_spec o "*") as [->|Hne].
      + split; [simpl; tauto|]. split; [reflexivity|simpl; tauto].
      + split; [simpl; tauto|]. split; [simpl; intuition discriminate|congruence].
    - split; [simpl; tauto|]. split; [simpl; intuition discriminate|discriminate]. }
  table_cases; cbn [fst r_headers]; try (split; assumption).
  all: split; [apply in_or_app; now left|].
  all: rewrite map_app, in_app_iff, Ha; cbn; intuition discriminate.
Qed.
